(** * med_agent: the KGML / GAF pre-processing pipeline ([pre_process.py])

    A shallow embedding of [src/pre_process.py] and the properties of its
    extract-and-load pipeline.

    The program is Python over three libraries: [xml.etree.ElementTree],
    [pandas] and [sqlite3].  Library calls are modelled at their interface:

    - [ET.parse] is read from an environment mapping a path to either the
      exception it raises or the element tree it returns;
    - [pd.read_csv] is read from an environment mapping a path to either the
      exception it raises or the frame (width and rows) it returns;
    - [cursor.execute] interprets the four SQL statements of the program on
      a store of three optional tables.

    Python code is embedded in a state-and-exception monad [M] over a
    [World] holding the store and a trace of observable events (lines
    printed, statements executed, commit, close).  A raised exception keeps
    the world reached so far, as in Python. *)

From Stdlib Require Import Ascii String.
From stdpp Require Import gmap strings list.

(** ** Python values and exceptions *)

Inductive Exn : Type :=
  | AttributeError (msg : string)
  | KeyError (key : string)
  | ValueError (msg : string)
  | OperationalError (msg : string)
  | ReadCsvError (msg : string).

Inductive Outcome (A : Type) : Type :=
  | Returned (a : A)
  | Raised (e : Exn).
Arguments Returned {A} a.
Arguments Raised {A} e.

(** [str.split(sep)] for a one-character separator: the pieces between
    consecutive separators, empty pieces included.  [''.split(' ')] is
    [['']]. *)
Fixpoint str_split (sep : ascii) (s : string) : list string :=
  match s with
  | EmptyString => [EmptyString]
  | String c s' =>
      if decide (c = sep) then EmptyString :: str_split sep s'
      else match str_split sep s' with
           | [] => [String c EmptyString]
           | piece :: pieces => String c piece :: pieces
           end
  end.

(** Number of occurrences of a character, [str.count]. *)
Fixpoint str_count (c : ascii) (s : string) : nat :=
  match s with
  | EmptyString => 0
  | String c' s' => (if decide (c' = c) then 1 else 0) + str_count c s'
  end.

(** The whitespace characters of [str.split()] within ASCII: tab, line
    feed, vertical tab, form feed, carriage return, the four separators
    0x1c-0x1f and space. *)
Definition is_whitespace (c : ascii) : bool :=
  let n := nat_of_ascii c in
  ((9 <=? n) && (n <=? 13)) || ((28 <=? n) && (n <=? 32)).

(** Whitespace-token count, after the specification's words: the number of
    maximal runs of non-whitespace characters.  [in_token] tells whether
    the previous character belonged to a token. *)
Fixpoint whitespace_token_count_from (in_token : bool) (s : string) : nat :=
  match s with
  | EmptyString => 0
  | String c s' =>
      if is_whitespace c then whitespace_token_count_from false s'
      else (if in_token then 0 else 1) + whitespace_token_count_from true s'
  end.

Definition whitespace_token_count (s : string) : nat :=
  whitespace_token_count_from false s.

(** A name made of non-empty tokens separated by single spaces: not empty,
    no space first or last, no two spaces in a row.  [after_space] tells
    whether the previous position was a space or the start. *)
Fixpoint single_spaced_from (after_space : bool) (s : string) : bool :=
  match s with
  | EmptyString => negb after_space
  | String c s' =>
      if decide (c = " "%char) then negb after_space && single_spaced_from true s'
      else single_spaced_from false s'
  end.

Definition single_spaced (s : string) : bool := single_spaced_from true s.

(** ** ElementTree *)

Module ET.

#[warnings="-register-all"] Inductive Element : Type :=
  Elem (tag : string) (attrib : gmap string string) (children : list Element).

Definition tag (e : Element) : string :=
  match e with Elem t _ _ => t end.
Definition attrib (e : Element) : gmap string string :=
  match e with Elem _ a _ => a end.
Definition children (e : Element) : list Element :=
  match e with Elem _ _ cs => cs end.

(** [Element.get(key)]: the attribute, or [None]. *)
Definition get (e : Element) (key : string) : option string :=
  attrib e !! key.

(** [Element.findall(tag)] for a plain tag name: the direct children
    carrying that tag, in document order. *)
Definition findall (e : Element) (path : string) : list Element :=
  filter (λ c, tag c = path) (children e).

(** What [ET.parse(path)] followed by [getroot()] does. *)
Inductive ParseResult : Type :=
  | ParseFails (e_str : string)
  | Parsed (root : Element).

End ET.

(** ** pandas *)

Module pd.

(** A cell of a frame.  Columns read with [dtype=str] hold [Str] or
    [NaN]; the other columns may also hold numbers. *)
Inductive Cell : Type :=
  | NaN
  | Str (s : string)
  | Num (z : Z).

#[global] Instance Cell_eq_dec : EqDecision Cell.
Proof. solve_decision. Defined.

Inductive Label : Type :=
  | Pos (i : nat)
  | Name (s : string).

#[global] Instance Label_eq_dec : EqDecision Label.
Proof. solve_decision. Defined.

Record DataFrame : Type := mkDataFrame {
  columns : list Label;
  data : list (list Cell)
}.

(** What [pd.read_csv(path, sep='\t', comment='!', header=None, ...)]
    does: it raises, or returns a frame of some width whose columns are
    labelled by position. *)
Inductive ReadResult : Type :=
  | ReadFails (e_str : string)
  | ReadFrame (width : nat) (rows : list (list Cell)).

Definition positional (width : nat) (rows : list (list Cell)) : DataFrame :=
  {| columns := Pos <$> seq 0 width; data := rows |}.

(** Position of a label among the columns. *)
Fixpoint index_of (l : Label) (cols : list Label) : option nat :=
  match cols with
  | [] => None
  | c :: cols' => if decide (c = l) then Some 0 else S <$> index_of l cols'
  end.

(** [DataFrame.duplicated()], keep='first': a row is marked when an equal
    row occurs before it ([NaN] equals [NaN] here). *)
Fixpoint duplicated (seen : list (list Cell)) (rows : list (list Cell))
  : list bool :=
  match rows with
  | [] => []
  | r :: rows' => bool_decide (r ∈ seen) :: duplicated (r :: seen) rows'
  end.

(** Rows whose mark is [false]. *)
Fixpoint unmarked (marks : list bool) (rows : list (list Cell))
  : list (list Cell) :=
  match marks, rows with
  | m :: marks', r :: rows' =>
      if m then unmarked marks' rows' else r :: unmarked marks' rows'
  | _, _ => []
  end.

(** [DataFrame.drop_duplicates()]. *)
Definition drop_duplicates (df : DataFrame) : DataFrame :=
  {| columns := columns df;
     data := unmarked (duplicated [] (data df)) (data df) |}.

(** [df.columns = names]: the number of names must be the width. *)
Definition set_columns (df : DataFrame) (names : list string)
  : Exn + DataFrame :=
  if decide (length names = length (columns df))
  then inr {| columns := Name <$> names; data := data df |}
  else inl (ValueError "Length mismatch").

(** Positions of the named columns, or the first name that is missing. *)
Fixpoint positions (cols : list Label) (names : list string)
  : Exn + list nat :=
  match names with
  | [] => inr []
  | n :: names' =>
      match index_of (Name n) cols with
      | None => inl (KeyError n)
      | Some i =>
          match positions cols names' with
          | inl e => inl e
          | inr ps => inr (i :: ps)
          end
      end
  end.

(** [df[names]]: the frame restricted to the named columns.  A cell
    missing from a short row reads as [NaN]. *)
Definition select (df : DataFrame) (names : list string)
  : Exn + DataFrame :=
  match positions (columns df) names with
  | inl e => inl e
  | inr ps =>
      inr {| columns := Name <$> names;
             data := (λ row, (λ i, nth i row NaN) <$> ps) <$> data df |}
  end.

(** [row[name]] for a row of [df]. *)
Definition loc (df : DataFrame) (row : list Cell) (name : string)
  : Exn + Cell :=
  match index_of (Name name) (columns df) with
  | None => inl (KeyError name)
  | Some i => inr (nth i row NaN)
  end.

End pd.

(** ** The store *)

(** A pathway record: the dictionary built by [parse_kgml], and a row of
    the [pathways] table.  [entry.get] may give [None]. *)
Record PathwayEntry : Type := mkPathwayEntry {
  entry_id : option string;
  gene_id : string;
  entry_type : option string;
  disease : string
}.

#[global] Instance PathwayEntry_eq_dec : EqDecision PathwayEntry.
Proof. solve_decision. Defined.

Inductive Table : Type := genes_t | pathways_t | gene_go_associations_t.

(** The statements the program executes. *)
Inductive Stmt : Type :=
  | CreateTableIfNotExists (t : Table)
  | InsertOrIgnoreGene (g : string)
  | InsertPathway (row : PathwayEntry)
  | InsertGeneGo (g go : pd.Cell).

(** The three tables; [None] when the table does not exist.  Rows are kept
    in insertion order. *)
Record Store : Type := mkStore {
  genes : option (list string);
  pathways : option (list PathwayEntry);
  gene_go_associations : option (list (pd.Cell * pd.Cell))
}.

(** [INSERT OR IGNORE] under a primary key: a present key is skipped. *)
Definition insert_or_ignore (g : string) (rows : list string) : list string :=
  if decide (g ∈ rows) then rows else rows ++ [g].

Definition create_if_absent {A} (t : option (list A)) : option (list A) :=
  match t with
  | None => Some []
  | Some rows => Some rows
  end.

(** One statement on the store.  [gene_id TEXT PRIMARY KEY] with
    [INSERT OR IGNORE] skips an identifier already present; the other
    inserts append.  Foreign keys are declared but not enforced (the
    SQLite default).  Inserting into a missing table raises. *)
Definition run_stmt (q : Stmt) (d : Store) : Exn + Store :=
  match q with
  | CreateTableIfNotExists genes_t =>
      inr {| genes := create_if_absent (genes d);
             pathways := pathways d;
             gene_go_associations := gene_go_associations d |}
  | CreateTableIfNotExists pathways_t =>
      inr {| genes := genes d;
             pathways := create_if_absent (pathways d);
             gene_go_associations := gene_go_associations d |}
  | CreateTableIfNotExists gene_go_associations_t =>
      inr {| genes := genes d;
             pathways := pathways d;
             gene_go_associations := create_if_absent (gene_go_associations d) |}
  | InsertOrIgnoreGene g =>
      match genes d with
      | None => inl (OperationalError "no such table: genes")
      | Some rows =>
          inr {| genes := Some (insert_or_ignore g rows);
                 pathways := pathways d;
                 gene_go_associations := gene_go_associations d |}
      end
  | InsertPathway row =>
      match pathways d with
      | None => inl (OperationalError "no such table: pathways")
      | Some rows =>
          inr {| genes := genes d;
                 pathways := Some (rows ++ [row]);
                 gene_go_associations := gene_go_associations d |}
      end
  | InsertGeneGo g go =>
      match gene_go_associations d with
      | None => inl (OperationalError "no such table: gene_go_associations")
      | Some rows =>
          inr {| genes := genes d;
                 pathways := pathways d;
                 gene_go_associations := Some (rows ++ [(g, go)]) |}
      end
  end.

(** ** The world and the monad *)

Inductive Event : Type :=
  | Printed (line : string)
  | Executed (q : Stmt)
  | Committed
  | Closed.

Record World : Type := mkWorld {
  db : Store;
  trace : list Event
}.

Definition M (A : Type) : Type := World → Outcome A * World.

#[global] Instance M_ret : MRet M := λ A a w, (Returned a, w).

#[global] Instance M_bind : MBind M := λ A B f m w,
  match m w with
  | (Returned a, w') => f a w'
  | (Raised e, w') => (Raised e, w')
  end.

Definition raise {A} (e : Exn) : M A := λ w, (Raised e, w).

Definition emit (ev : Event) : M unit := λ w,
  (Returned (), {| db := db w; trace := trace w ++ [ev] |}).

(** [print(line)]. *)
Definition print (line : string) : M unit := emit (Printed line).

(** [cursor.execute(q)]. *)
Definition execute (q : Stmt) : M unit := λ w,
  match run_stmt q (db w) with
  | inl e => (Raised e, w)
  | inr d' => (Returned (), {| db := d'; trace := trace w ++ [Executed q] |})
  end.

(** A library call that returns or raises, without touching the world. *)
Definition lift {A} (r : Exn + A) : M A :=
  match r with
  | inl e => raise e
  | inr a => mret a
  end.

(** [for x in xs: body], where the body updates loop-carried variables of
    type [S]. *)
Fixpoint for_each {A S} (xs : list A) (body : S → A → M S) (s : S) : M S :=
  match xs with
  | [] => mret s
  | x :: xs' => s' ← body s x; for_each xs' body s'
  end.

(** Method call [o.split(sep)] on a value that may be [None]. *)
Definition split_method (o : option string) (sep : ascii) : M (list string) :=
  match o with
  | None => raise (AttributeError "'NoneType' object has no attribute 'split'")
  | Some s => mret (str_split sep s)
  end.

(** ** The program *)

Section Program.

(** The files of the run, as the two readers see them. *)
Variable et_parse : string → ET.ParseResult.
Variable read_csv : string → pd.ReadResult.

Definition parse_kgml (file_path disease : string) : M (list PathwayEntry) :=
  match et_parse file_path with
  | ET.ParseFails e =>
      print ("Error parsing " +:+ file_path +:+ ": " +:+ e);;
      mret []
  | ET.Parsed root =>
      for_each (ET.findall root "entry")
        (λ pathways entry,
           let entry_id := ET.get entry "id" in
           let entry_name := ET.get entry "name" in
           let entry_type := ET.get entry "type" in
           gene_names ← split_method entry_name " ";
           for_each gene_names
             (λ pathways gene_name,
                mret (pathways ++ [ {| entry_id := entry_id;
                                       gene_id := gene_name;
                                       entry_type := entry_type;
                                       disease := disease |} ]))
             pathways)
        []
  end.

(** The column names of the annotation format. *)
Definition gaf_columns : list string :=
  [ "DB"; "DB_Object_ID"; "DB_Object_Symbol"; "Qualifier"; "GO_ID";
    "DB:Reference"; "Evidence_Code"; "With_or_From"; "Aspect";
    "DB_Object_Name"; "DB_Object_Synonym"; "DB_Object_Type"; "Taxon";
    "Date"; "Assigned_By"; "Annotation_Extension"; "Gene_Product_Form_ID" ].

Definition parse_gaf (file_path : string) : M pd.DataFrame :=
  match read_csv file_path with
  | pd.ReadFails e => raise (ReadCsvError e)
  | pd.ReadFrame width rows =>
      gaf_df ← lift (pd.set_columns (pd.positional width rows) gaf_columns);
      selected ← lift (pd.select gaf_df ["DB_Object_Symbol"; "GO_ID"]);
      mret (pd.drop_duplicates selected)
  end.

Definition insert_genes (data : list string) : M unit :=
  for_each data (λ _ gene_id, execute (InsertOrIgnoreGene gene_id)) ().

Definition insert_pathways (data : list PathwayEntry) : M unit :=
  for_each data
    (λ _ row,
       execute (InsertPathway {| entry_id := entry_id row;
                                 gene_id := gene_id row;
                                 entry_type := entry_type row;
                                 disease := disease row |}))
    ().

Definition insert_gene_go_associations (data : pd.DataFrame) : M unit :=
  for_each (pd.data data)
    (λ _ row,
       g ← lift (pd.loc data row "DB_Object_Symbol");
       go ← lift (pd.loc data row "GO_ID");
       execute (InsertGeneGo g go))
    ().

Definition create_tables : M unit :=
  execute (CreateTableIfNotExists genes_t);;
  execute (CreateTableIfNotExists pathways_t);;
  execute (CreateTableIfNotExists gene_go_associations_t).

Definition files_and_diseases : list (string * string) :=
  [ ("KEGG_data/KGML/hsa05010.xml", "Alzheimer's disease");
    ("KEGG_data/KGML/hsa05012.xml", "Parkinson's disease");
    ("KEGG_data/KGML/hsa04930.xml", "Type II diabetes mellitus");
    ("KEGG_data/KGML/hsa05210.xml", "Colorectal cancer") ].

(** The body of the loop over the documents: extract, insert the pathway
    rows, add the gene tokens to the set. *)
Definition load_document (unique_genes : gset string)
    (doc : string * string) : M (gset string) :=
  let '(file_path, disease) := doc in
  pathways_data ← parse_kgml file_path disease;
  insert_pathways pathways_data;;
  for_each pathways_data
    (λ unique_genes pathway, mret (unique_genes ∪ {[ gene_id pathway ]}))
    unique_genes.

(** [main], from the open connection on.  [list(unique_genes)] lists the
    set in some order. *)
Definition main : M unit :=
  create_tables;;
  unique_genes ← for_each files_and_diseases load_document ∅;
  insert_genes (elements unique_genes);;
  gaf_data ← parse_gaf "goa_human.gaf";
  insert_gene_go_associations gaf_data;;
  emit Committed;;
  emit Closed.

End Program.

(** A run of [main] on a store, with an empty trace. *)
Definition run_main (et_parse : string → ET.ParseResult)
    (read_csv : string → pd.ReadResult) (d : Store) : Outcome unit * World :=
  main et_parse read_csv {| db := d; trace := [] |}.

Definition empty_store : Store :=
  {| genes := None; pathways := None; gene_go_associations := None |}.

(** ** Observations on traces *)

(** The table an executed insert statement writes to. *)
Definition writes_to (t : Table) (ev : Event) : Prop :=
  match ev with
  | Executed (InsertOrIgnoreGene _) => t = genes_t
  | Executed (InsertPathway _) => t = pathways_t
  | Executed (InsertGeneGo _ _) => t = gene_go_associations_t
  | _ => False
  end.

(** Every event satisfying [P] occurs at an earlier position than every
    event satisfying [Q]. *)
Definition all_before (P Q : Event → Prop) (l : list Event) : Prop :=
  ∀ i j a b, l !! i = Some a → l !! j = Some b → P a → Q b → i < j.

(** A computation that only appends events satisfying [P] to the trace. *)
Definition emits {A} (P : Event → Prop) (m : M A) : Prop :=
  ∀ w, ∃ l, trace (m w).2 = trace w ++ l ∧ Forall P l.

(** A computation that appends events satisfying [P], then events
    satisfying [Q]. *)
Definition emits_then {A} (P Q : Event → Prop) (m : M A) : Prop :=
  ∀ w, ∃ l1 l2,
    trace (m w).2 = trace w ++ l1 ++ l2 ∧ Forall P l1 ∧ Forall Q l2.

(** A computation that leaves an observation of the store unchanged. *)
Definition keeps {A X} (obs : Store → X) (m : M A) : Prop :=
  ∀ w, obs (db (m w).2) = obs (db w).

(** A computation that raises from every world. *)
Definition always_raises {A} (m : M A) : Prop :=
  ∀ w, ∃ e, (m w).1 = Raised e.

(** A computation that raises from every world and leaves it as it was. *)
Definition raises_at_once {A} (m : M A) : Prop :=
  ∀ w, ∃ e, m w = (Raised e, w).

(** An annotation source that [read_csv] cannot read, or whose table does
    not have the seventeen columns of the format.  These are the sources
    [parse_gaf] refuses.  A line with fewer fields than the table is wide
    is not among them: [read_csv] fills it (see [fill_short_line]). *)
Definition gaf_invalid (r : pd.ReadResult) : Prop :=
  match r with
  | pd.ReadFails _ => True
  | pd.ReadFrame width _ => width ≠ 17
  end.

(** The name attributes of the entries the extractor visits. *)
Definition entry_names (root : ET.Element) : list (option string) :=
  (λ e, ET.get e "name") <$> ET.findall root "entry".

(** The records one entry contributes: one per piece of its name. *)
Definition entry_records (label : string) (e : ET.Element) : list PathwayEntry :=
  (λ g, {| entry_id := ET.get e "id";
           gene_id := g;
           entry_type := ET.get e "type";
           disease := label |})
    <$> str_split " " (default EmptyString (ET.get e "name")).

(** All whitespace in the string is the space character. *)
Fixpoint space_only (s : string) : bool :=
  match s with
  | EmptyString => true
  | String c s' =>
      (if is_whitespace c then bool_decide (c = " "%char) else true)
      && space_only s'
  end.



(** ** Fixtures *)

Definition entry (i n t : string) : ET.Element :=
  ET.Elem "entry" {[ "id" := i; "name" := n; "type" := t ]} [].

(** An entry without a name attribute. *)
Definition nameless_entry (i t : string) : ET.Element :=
  ET.Elem "entry" {[ "id" := i; "type" := t ]} [].

(** One entry naming two genes. *)
Definition doc_two_genes : ET.Element :=
  ET.Elem "pathway" ∅ [entry "10" "BRCA1 TP53" "gene"].

(** One entry whose name has two spaces in a row. *)
Definition doc_double_space : ET.Element :=
  ET.Elem "pathway" ∅ [entry "11" "A  B" "gene"].

Definition doc_nameless : ET.Element :=
  ET.Elem "pathway" ∅ [entry "10" "BRCA1 TP53" "gene"; nameless_entry "12" "gene"].

(** A file system holding one document at the last path of the run. *)
Definition only_colorectal (root : ET.Element) (path : string) : ET.ParseResult :=
  if decide (path = "KEGG_data/KGML/hsa05210.xml") then ET.Parsed root
  else ET.ParseFails "No such file or directory".

Definition gaf_row (symbol go last : string) : list pd.Cell :=
  pd.Str <$> [ "UniProtKB"; "P04637"; symbol; "enables"; go; "PMID:1"; "IDA";
               ""; "P"; "name"; "syn"; "protein"; "taxon:9606"; "20200101";
               "UniProt"; ""; last ].

(** Two rows with the same symbol and term, differing in the last column. *)
Definition gaf_duplicate_pair (path : string) : pd.ReadResult :=
  pd.ReadFrame 17 [ gaf_row "TP53" "GO:0006915" "x";
                    gaf_row "TP53" "GO:0006915" "y" ].

(** A table of sixteen columns. *)
Definition gaf_sixteen (path : string) : pd.ReadResult :=
  pd.ReadFrame 16 [ pd.Str <$> [ "UniProtKB"; "P04637"; "TP53"; "enables";
                                 "GO:0006915"; "PMID:1"; "IDA"; ""; "P";
                                 "name"; "syn"; "protein"; "taxon:9606";
                                 "20200101"; "UniProt"; "" ] ].

Definition gaf_missing (path : string) : pd.ReadResult :=
  pd.ReadFails "No such file or directory".

Definition fresh_world : World := {| db := empty_store; trace := [] |}.

Definition ready_store : Store :=
  {| genes := Some []; pathways := Some []; gene_go_associations := Some [] |}.

Definition ready_world : World := {| db := ready_store; trace := [] |}.


(** ** Further observations *)

(** What the extractor reads of an entry: its id, name and type. *)
Definition entry_view (e : ET.Element)
  : option string * option string * option string :=
  (ET.get e "id", ET.get e "name", ET.get e "type").

(** The document [doc_two_genes] as a real file has it: attributes on the
    root, a relation element holding an entry of its own, and an entry
    with a further attribute and a graphics child. *)
Definition doc_two_genes_full : ET.Element :=
  ET.Elem "pathway" {[ "name" := "path:hsa05210"; "org" := "hsa" ]}
    [ ET.Elem "relation" {[ "type" := "PPrel" ]} [entry "99" "X" "gene"];
      ET.Elem "entry"
        {[ "id" := "10"; "name" := "BRCA1 TP53"; "type" := "gene";
           "link" := "https://www.kegg.jp" ]}
        [ET.Elem "graphics" {[ "name" := "BRCA1, TP53" ]} []] ].

(** The (gene symbol, term id) cells of the rows of a seventeen-column
    table, in table order. *)
Definition gaf_pairs (rows : list (list pd.Cell)) : list (list pd.Cell) :=
  (λ row, [nth 2 row pd.NaN; nth 4 row pd.NaN]) <$> rows.

(** The values bound by [insert_gene_go_associations] for a record of the
    frame [parse_gaf] returns. *)
Definition record_tuple (r : list pd.Cell) : pd.Cell * pd.Cell :=
  (nth 0 r pd.NaN, nth 1 r pd.NaN).

(** A table whose first two rows, of three, carry one pair. *)
Definition gaf_three_rows (path : string) : pd.ReadResult :=
  pd.ReadFrame 17 [ gaf_row "TP53" "GO:0006915" "x";
                    gaf_row "TP53" "GO:0006915" "y";
                    gaf_row "BRCA1" "GO:0006281" "z" ].

(** A table of two rows with different pairs. *)
Definition gaf_distinct (path : string) : pd.ReadResult :=
  pd.ReadFrame 17 [ gaf_row "TP53" "GO:0006915" "x";
                    gaf_row "BRCA1" "GO:0006281" "z" ].

(** A frame without the gene symbol column. *)
Definition frame_without_symbol : pd.DataFrame :=
  {| pd.columns := [pd.Name "GO_ID"];
     pd.data := [[pd.Str "GO:0006915"]] |}.

(** A frame as [parse_gaf] returns it, with one record. *)
Definition frame_one_record : pd.DataFrame :=
  {| pd.columns := [pd.Name "DB_Object_Symbol"; pd.Name "GO_ID"];
     pd.data := [[pd.Str "TP53"; pd.Str "GO:0006915"]] |}.

(** A document of the run that the extractor gets through: it cannot be
    read, or every entry of it has a name. *)
Definition doc_ok (et_parse : string → ET.ParseResult) (doc : string * string)
  : Prop :=
  match et_parse doc.1 with
  | ET.ParseFails _ => True
  | ET.Parsed root => Forall is_Some (entry_names root)
  end.

(** The records of a document: none when it cannot be read. *)
Definition doc_records (et_parse : string → ET.ParseResult)
    (doc : string * string) : list PathwayEntry :=
  match et_parse doc.1 with
  | ET.ParseFails _ => []
  | ET.Parsed root => ET.findall root "entry" ≫= entry_records doc.2
  end.

(** The records of the four documents of the run, in the order of the
    run. *)
Definition run_records (et_parse : string → ET.ParseResult) : list PathwayEntry :=
  files_and_diseases ≫= doc_records et_parse.

(** A document with an entry that has no name. *)
Definition doc_nameless_entry (et_parse : string → ET.ParseResult)
    (doc : string * string) : Prop :=
  ∃ root e,
    et_parse doc.1 = ET.Parsed root
    ∧ e ∈ ET.findall root "entry"
    ∧ ET.get e "name" = None.

(** Neither the commit nor the close. *)
Definition before_commit (ev : Event) : Prop :=
  ev ≠ Committed ∧ ev ≠ Closed.

(** A computation that, when it returns, has emitted events in [P]
    followed by the commit and the close, and when it raises has emitted
    events in [P] only. *)
Definition commits_last {A} (P : Event → Prop) (m : M A) : Prop :=
  ∀ w,
    match (m w).1 with
    | Returned _ =>
        ∃ l, trace (m w).2 = trace w ++ l ++ [Committed; Closed] ∧ Forall P l
    | Raised _ =>
        ∃ l, trace (m w).2 = trace w ++ l ∧ Forall P l
    end.

(** A computation whose events come in phases: one list of events per
    predicate, in order. *)
Definition trace_phases {A} (Qs : list (list Event → Prop)) (m : M A) : Prop :=
  ∀ w, ∃ ls,
    trace (m w).2 = trace w ++ concat ls ∧ Forall2 (λ Q l, Q l) Qs ls.

(** The events of the loop over the documents: a diagnostic, or a pathway
    insert. *)
Definition document_event (ev : Event) : Prop :=
  match ev with
  | Printed _ => True
  | Executed (InsertPathway _) => True
  | _ => False
  end.

(** The events after the gene inserts: an annotation insert, the commit,
    the close. *)
Definition closing_event (ev : Event) : Prop :=
  match ev with
  | Executed (InsertGeneGo _ _) => True
  | Committed => True
  | Closed => True
  | _ => False
  end.

(** The three statements of the schema setup. *)
Definition schema_events : list Event :=
  [ Executed (CreateTableIfNotExists genes_t);
    Executed (CreateTableIfNotExists pathways_t);
    Executed (CreateTableIfNotExists gene_go_associations_t) ].

(** Gene inserts for a list of identifiers. *)
Definition gene_inserts (gs : list string) : list Event :=
  (λ g, Executed (InsertOrIgnoreGene g)) <$> gs.

(** [sep.join(pieces)]. *)
Fixpoint str_join (sep : string) (pieces : list string) : string :=
  match pieces with
  | [] => EmptyString
  | [piece] => piece
  | piece :: pieces' => piece +:+ sep +:+ str_join sep pieces'
  end.

(** What [read_csv] makes of a line with fewer fields than the table is
    wide: the fields, then [NaN] for each missing one. *)
Definition fill_short_line (width : nat) (fields : list pd.Cell) : list pd.Cell :=
  fields ++ replicate (width - length fields) pd.NaN.

(** The two fields of a line cut short after the second column. *)
Definition short_line : list pd.Cell := pd.Str <$> ["UniProtKB"; "P04637"].

(** A source whose first line has the seventeen fields and whose second
    line has two: the frame [read_csv] returns for it. *)
Definition gaf_short_line (path : string) : pd.ReadResult :=
  pd.ReadFrame 17 [ gaf_row "TP53" "GO:0006915" "x";
                    fill_short_line 17 short_line ].


(** * Properties *)

(** ** The monad *)

Lemma bind_returned {A B} (m : M A) (f : A → M B) (w w' : World) (a : A) :
  m w = (Returned a, w') → (m ≫= f) w = f a w'.
Proof. intros Hm. unfold mbind, M_bind. by rewrite Hm. Qed.

Lemma bind_raised {A B} (m : M A) (f : A → M B) (w w' : World) (e : Exn) :
  m w = (Raised e, w') → (m ≫= f) w = (Raised e, w').
Proof. intros Hm. unfold mbind, M_bind. by rewrite Hm. Qed.

(** A loop whose body only extends an accumulated list. *)
Lemma for_each_append {A B} (xs : list A) (g : A → B) (acc : list B) (w : World) :
  for_each xs (λ acc x, mret (acc ++ [g x])) acc w
  = (Returned (acc ++ (g <$> xs)), w).
Proof.
  revert acc. induction xs as [|x xs IH]; intros acc; simpl.
  - by rewrite app_nil_r.
  - erewrite bind_returned by reflexivity.
    rewrite IH. by rewrite <- app_assoc.
Qed.

(** A loop whose body only grows an accumulated set. *)
Lemma for_each_union {A} (xs : list A) (g : A → string) (acc : gset string)
    (w : World) :
  for_each xs (λ acc x, mret (acc ∪ {[ g x ]})) acc w
  = (Returned (acc ∪ list_to_set (g <$> xs)), w).
Proof.
  revert acc. induction xs as [|x xs IH]; intros acc; simpl.
  - by rewrite (right_id_L ∅ (∪)).
  - erewrite bind_returned by reflexivity.
    rewrite IH. by rewrite (assoc_L (∪)).
Qed.

(** ** Splitting on a space *)

Lemma str_split_length (sep : ascii) (s : string) :
  length (str_split sep s) = S (str_count sep s).
Proof.
  induction s as [|c s IH]; simpl; [done|].
  destruct (decide (c = sep)); simpl.
  - by rewrite IH.
  - destruct (str_split sep s); simpl in *; lia.
Qed.

(** No piece contains the separator. *)
Lemma str_split_no_sep (sep : ascii) (s piece : string) :
  piece ∈ str_split sep s → str_count sep piece = 0.
Proof.
  revert piece. induction s as [|c s IH]; intros piece; simpl.
  - intros ->%list_elem_of_singleton. done.
  - destruct (decide (c = sep)) as [->|Hne].
    + intros [->|Hin]%elem_of_cons; [done|by apply IH].
    + destruct (str_split sep s) as [|p ps].
      * intros ->%list_elem_of_singleton. simpl. by rewrite decide_False.
      * intros [->|Hin]%elem_of_cons.
        -- simpl. rewrite decide_False by done.
           apply IH. by left.
        -- apply IH. by right.
Qed.

(** The pieces are all non-empty exactly for single-spaced names. *)
Lemma single_spaced_from_pieces (after_space : bool) (s : string) :
  single_spaced_from after_space s = true ↔
  match str_split " " s with
  | [] => False
  | piece :: pieces =>
      (after_space = true → piece ≠ EmptyString)
      ∧ Forall (λ p, p ≠ EmptyString) pieces
  end.
Proof.
  revert after_space. induction s as [|c s IH]; intros after_space; simpl.
  - destruct after_space; simpl; intuition (try congruence; try constructor).
  - pose proof (str_split_length " " s) as Hlen.
    destruct (decide (c = " "%char)) as [->|Hne].
    + specialize (IH true).
      destruct (str_split " " s) as [|p ps]; [done|].
      destruct after_space; simpl.
      * split; [done|]. intros [Hx _]. by destruct Hx.
      * rewrite IH, Forall_cons. intuition congruence.
    + specialize (IH false).
      destruct (str_split " " s) as [|p ps]; [done|].
      rewrite IH. intuition congruence.
Qed.

Lemma single_spaced_pieces (s : string) :
  single_spaced s = true ↔ Forall (λ p, p ≠ EmptyString) (str_split " " s).
Proof.
  unfold single_spaced. rewrite single_spaced_from_pieces.
  destruct (str_split " " s) as [|p ps] eqn:E.
  - pose proof (str_split_length " " s) as Hl. rewrite E in Hl. done.
  - rewrite Forall_cons. intuition congruence.
Qed.

(** When all whitespace is single spaces between tokens, the pieces are
    the whitespace tokens. *)
Lemma single_spaced_from_token_count (after_space : bool) (s : string) :
  single_spaced_from after_space s = true → space_only s = true →
  whitespace_token_count_from (negb after_space) s
  = (if after_space then 1 else 0) + str_count " " s.
Proof.
  revert after_space. induction s as [|c s IH]; intros after_space; simpl.
  - by destruct after_space.
  - intros Hs [Hc Hrest]%andb_true_iff.
    destruct (decide (c = " "%char)) as [->|Hne]; simpl in *.
    + apply andb_true_iff in Hs as [Ha Hs]. destruct after_space; [done|].
      pose proof (IH true Hs Hrest) as Hcount. simpl in *. by rewrite Hcount.
    + pose proof (IH false Hs Hrest) as Hcount.
      destruct (is_whitespace c).
      * by apply bool_decide_eq_true in Hc.
      * simpl in *. rewrite Hcount. by destruct after_space.
Qed.

Lemma single_spaced_token_count (s : string) :
  single_spaced s = true → space_only s = true →
  whitespace_token_count s = S (str_count " " s).
Proof. intros Hs Hw. by apply (single_spaced_from_token_count true). Qed.

(** ** The pathway extractor *)

Section Extractor.

Variable et_parse : string → ET.ParseResult.

(** The loop over the entries, from any accumulated list, when every
    entry has a name. *)
Lemma parse_kgml_parsed (file_path label : string) (root : ET.Element)
    (w : World) :
  et_parse file_path = ET.Parsed root →
  Forall is_Some (entry_names root) →
  parse_kgml et_parse file_path label w
  = (Returned (ET.findall root "entry" ≫= entry_records label), w).
Proof.
  intros Hparse Hnamed. unfold parse_kgml. rewrite Hparse.
  unfold entry_names in Hnamed. rewrite Forall_fmap in Hnamed.
  match goal with
  | |- for_each ?es ?body _ _ = _ =>
      enough (∀ acc, for_each es body acc w
                     = (Returned (acc ++ (es ≫= entry_records label)), w))
        as Hloop by apply (Hloop [])
  end.
  induction Hnamed as [|e es [name Hname] _ IH]; intros acc.
  - simpl. by rewrite app_nil_r.
  - simpl in Hname. cbn [for_each].
    erewrite bind_returned; cycle 1.
    { rewrite Hname. cbn [split_method].
      erewrite bind_returned by reflexivity. apply for_each_append. }
    rewrite IH. cbn [mbind list_bind]. unfold entry_records at 2.
    rewrite Hname. simpl. by rewrite <- app_assoc.
Qed.

(** The loop stops with [AttributeError] at the first entry without a
    name; nothing was printed or written. *)
Lemma parse_kgml_nameless (file_path label : string) (root : ET.Element)
    (w : World) :
  et_parse file_path = ET.Parsed root →
  Exists (λ o, o = None) (entry_names root) →
  ∃ msg, parse_kgml et_parse file_path label w = (Raised (AttributeError msg), w).
Proof.
  intros Hparse Hex. unfold parse_kgml. rewrite Hparse.
  unfold entry_names in Hex. rewrite Exists_fmap in Hex.
  match goal with
  | |- ∃ msg, for_each ?es ?body _ _ = _ =>
      enough (∀ acc, ∃ msg, for_each es body acc w
                            = (Raised (AttributeError msg), w))
        as Hloop by apply (Hloop [])
  end.
  induction Hex as [e es Hname|e es _ IH]; intros acc; cbn [for_each].
  - simpl in Hname. rewrite Hname. cbn [split_method].
    eexists. erewrite bind_raised; [done|]. by erewrite bind_raised.
  - destruct (ET.get e "name") as [name|] eqn:Hname; cbn [split_method].
    + destruct (IH (acc ++ entry_records label e)) as [msg Hmsg].
      exists msg. erewrite bind_returned; [exact Hmsg|].
      erewrite bind_returned by reflexivity.
      unfold entry_records. rewrite Hname. apply for_each_append.
    + eexists. erewrite bind_raised; [done|]. by erewrite bind_raised.
Qed.


(** C2 (as amended): when every entry's name is non-empty, neither
    starts nor ends with a space and has no two spaces in a row, every
    record the extractor returns has a non-empty gene token. *)
Theorem parse_kgml_gene_nonempty (file_path label : string)
    (root : ET.Element) (w : World) :
  et_parse file_path = ET.Parsed root →
  Forall (λ o, ∃ name, o = Some name ∧ single_spaced name = true)
    (entry_names root) →
  ∃ recs,
    parse_kgml et_parse file_path label w = (Returned recs, w)
    ∧ Forall (λ r, gene_id r ≠ EmptyString) recs.
Proof.
  intros Hparse Hnames. eexists. split.
  - apply parse_kgml_parsed; [done|].
    eapply Forall_impl; [exact Hnames|]. intros o (name & -> & _). by eexists.
  - unfold entry_names in Hnames. rewrite Forall_fmap in Hnames.
    apply Forall_forall. intros r Hr.
    apply list_elem_of_bind in Hr as (e & Hr & He).
    rewrite Forall_forall in Hnames.
    destruct (Hnames e He) as (name & Hname & Hsp). simpl in Hname.
    unfold entry_records in Hr. rewrite Hname in Hr. simpl in Hr.
    apply list_elem_of_fmap in Hr as (g & -> & Hg). simpl.
    apply single_spaced_pieces in Hsp.
    rewrite Forall_forall in Hsp. by apply Hsp.
Qed.

(** C9: for a parsed document with an entry that has no name attribute,
    the extractor raises [AttributeError]; it neither returns a sequence
    nor takes the recovery path (nothing is printed). *)
Theorem parse_kgml_missing_name_raises (file_path label : string)
    (root : ET.Element) (w : World) :
  et_parse file_path = ET.Parsed root →
  (∃ e, e ∈ ET.findall root "entry" ∧ ET.get e "name" = None) →
  ∃ msg,
    parse_kgml et_parse file_path label w = (Raised (AttributeError msg), w).
Proof.
  intros Hparse (e & He & Hname).
  apply parse_kgml_nameless with root; [done|].
  unfold entry_names. apply Exists_exists. exists None. split; [|done].
  apply list_elem_of_fmap. by exists e.
Qed.

End Extractor.



Lemma parse_kgml_gene_nonempty_witness :
  Forall (λ o, ∃ name, o = Some name ∧ single_spaced name = true)
    (entry_names doc_two_genes)
  ∧ ∃ recs,
      parse_kgml (only_colorectal doc_two_genes) "KEGG_data/KGML/hsa05210.xml"
        "Colorectal cancer" fresh_world = (Returned recs, fresh_world)
      ∧ Forall (λ r, gene_id r ≠ EmptyString) recs.
Proof.
  assert (Hnames : Forall (λ o, ∃ name, o = Some name ∧ single_spaced name = true)
                     (entry_names doc_two_genes)).
  { vm_compute. repeat constructor. eexists. split; reflexivity. }
  split; [exact Hnames|].
  apply (parse_kgml_gene_nonempty (only_colorectal doc_two_genes)
           "KEGG_data/KGML/hsa05210.xml" "Colorectal cancer" doc_two_genes
           fresh_world); [reflexivity|exact Hnames].
Defined.

(** C2 as stated fails: for a name with two spaces in a row the extractor
    returns a record whose gene token is the empty string. *)
Lemma parse_kgml_empty_gene_counterexample :
  ∃ recs r,
    parse_kgml (only_colorectal doc_double_space) "KEGG_data/KGML/hsa05210.xml"
      "Colorectal cancer" fresh_world = (Returned recs, fresh_world)
    ∧ recs !! 1 = Some r
    ∧ gene_id r = EmptyString.
Proof.
  eexists _, _. split; [vm_compute; reflexivity|].
  split; reflexivity.
Qed.

Lemma parse_kgml_missing_name_raises_witness :
  (∃ e, e ∈ ET.findall doc_nameless "entry" ∧ ET.get e "name" = None)
  ∧ ∃ msg,
      parse_kgml (only_colorectal doc_nameless) "KEGG_data/KGML/hsa05210.xml"
        "Colorectal cancer" fresh_world
      = (Raised (AttributeError msg), fresh_world).
Proof.
  assert (Hex : ∃ e, e ∈ ET.findall doc_nameless "entry" ∧ ET.get e "name" = None).
  { exists (nameless_entry "12" "gene"). split; [|reflexivity].
    vm_compute. apply list_elem_of_further, list_elem_of_here. }
  split; [exact Hex|].
  apply (parse_kgml_missing_name_raises (only_colorectal doc_nameless)
           "KEGG_data/KGML/hsa05210.xml" "Colorectal cancer" doc_nameless
           fresh_world); [reflexivity|exact Hex].
Defined.

(** The scenario of the specification: one entry naming two genes gives
    two records. *)
Example parse_kgml_two_genes :
  (parse_kgml (only_colorectal doc_two_genes) "KEGG_data/KGML/hsa05210.xml"
     "Colorectal cancer" fresh_world).1
  = Returned [ {| entry_id := Some "10"; gene_id := "BRCA1";
                  entry_type := Some "gene"; disease := "Colorectal cancer" |};
               {| entry_id := Some "10"; gene_id := "TP53";
                  entry_type := Some "gene"; disease := "Colorectal cancer" |} ].
Proof. vm_compute. reflexivity. Qed.

(** A document without entries gives no record. *)
Example parse_kgml_no_entries :
  (parse_kgml (only_colorectal (ET.Elem "pathway" ∅ []))
     "KEGG_data/KGML/hsa05210.xml" "Colorectal cancer" fresh_world).1
  = Returned [].
Proof. vm_compute. reflexivity. Qed.

(** ** The loader *)

Lemma insert_or_ignore_present (g : string) (rows : list string) :
  g ∈ rows → insert_or_ignore g rows = rows.
Proof. intros Hin. unfold insert_or_ignore. by rewrite decide_True. Qed.

Lemma insert_or_ignore_elem (g x : string) (rows : list string) :
  x ∈ insert_or_ignore g rows ↔ x = g ∨ x ∈ rows.
Proof.
  unfold insert_or_ignore. destruct (decide (g ∈ rows)) as [Hin|Hnin].
  - split; [by right|]. by intros [->|].
  - rewrite elem_of_app, list_elem_of_singleton. tauto.
Qed.

(** The primary key stays unique. *)
Lemma insert_or_ignore_NoDup (g : string) (rows : list string) :
  NoDup rows → NoDup (insert_or_ignore g rows).
Proof.
  intros Hnd. unfold insert_or_ignore. destruct (decide (g ∈ rows)); [done|].
  apply NoDup_app. split; [done|]. split; [|apply NoDup_singleton].
  intros x Hx ->%list_elem_of_singleton. done.
Qed.

Lemma foldl_insert_or_ignore_elem (data rows : list string) (x : string) :
  x ∈ foldl (λ rows g, insert_or_ignore g rows) rows data ↔ x ∈ data ∨ x ∈ rows.
Proof.
  revert rows. induction data as [|g data IH]; intros rows; simpl.
  - rewrite elem_of_nil. tauto.
  - rewrite IH, insert_or_ignore_elem, elem_of_cons. tauto.
Qed.

Lemma foldl_insert_or_ignore_NoDup (data rows : list string) :
  NoDup rows → NoDup (foldl (λ rows g, insert_or_ignore g rows) rows data).
Proof.
  revert rows. induction data as [|g data IH]; intros rows Hnd; simpl; [done|].
  by apply IH, insert_or_ignore_NoDup.
Qed.

Lemma foldl_insert_or_ignore_present (data rows : list string) :
  (∀ g, g ∈ data → g ∈ rows) →
  foldl (λ rows g, insert_or_ignore g rows) rows data = rows.
Proof.
  induction data as [|g data IH]; intros Hsub; simpl; [done|].
  rewrite insert_or_ignore_present by (apply Hsub; left).
  apply IH. intros x Hx. apply Hsub. by right.
Qed.

Lemma filter_eq_absent (g : string) (rows : list string) :
  g ∉ rows → filter (λ x, x = g) rows = [].
Proof.
  induction rows as [|x rows IH]; intros Hnin; [done|].
  apply not_elem_of_cons in Hnin as [Hne Hnin].
  rewrite filter_cons_False by congruence. by apply IH.
Qed.

(** In a list without repetition a member occurs once. *)
Lemma NoDup_occurs_once (g : string) (rows : list string) :
  NoDup rows → g ∈ rows → length (filter (λ x, x = g) rows) = 1.
Proof.
  induction 1 as [|x rows Hx Hnd IH]; intros Hin.
  - by apply elem_of_nil in Hin.
  - rewrite filter_cons. destruct (decide (x = g)) as [->|Hne].
    + simpl. by rewrite filter_eq_absent.
    + apply elem_of_cons in Hin as [->|Hin]; [done|]. by apply IH.
Qed.

Section Loader.

Variable et_parse : string → ET.ParseResult.
Variable read_csv : string → pd.ReadResult.

(** [insert_genes] on an existing [genes] table: it returns, the table
    becomes the fold of insert-or-ignore, the other tables stay. *)
Lemma insert_genes_run (data : list string) (w : World) (rows : list string) :
  genes (db w) = Some rows →
  ∃ w',
    insert_genes data w = (Returned (), w')
    ∧ genes (db w') = Some (foldl (λ rows g, insert_or_ignore g rows) rows data)
    ∧ pathways (db w') = pathways (db w)
    ∧ gene_go_associations (db w') = gene_go_associations (db w).
Proof.
  unfold insert_genes. revert w rows.
  induction data as [|g data IH]; intros w rows Hrows; cbn [for_each foldl].
  - by exists w.
  - set (w1 := {| db := {| genes := Some (insert_or_ignore g rows);
                          pathways := pathways (db w);
                          gene_go_associations := gene_go_associations (db w) |};
                  trace := trace w ++ [Executed (InsertOrIgnoreGene g)] |}).
    destruct (IH w1 (insert_or_ignore g rows) eq_refl) as (w' & Hrun & Hg & Hp & Ha).
    exists w'. split; [|done].
    erewrite bind_returned; [exact Hrun|].
    unfold execute, run_stmt. by rewrite Hrows.
Qed.

(** [insert_pathways] on an existing [pathways] table: it returns and
    appends the records in order. *)
Lemma insert_pathways_run (data : list PathwayEntry) (w : World)
    (rows : list PathwayEntry) :
  pathways (db w) = Some rows →
  ∃ w',
    insert_pathways data w = (Returned (), w')
    ∧ pathways (db w') = Some (rows ++ data).
Proof.
  unfold insert_pathways. revert w rows.
  induction data as [|row data IH]; intros w rows Hrows; cbn [for_each].
  - exists w. by rewrite app_nil_r.
  - set (w1 := {| db := {| genes := genes (db w);
                          pathways := Some (rows ++ [row]);
                          gene_go_associations := gene_go_associations (db w) |};
                  trace := trace w ++ [Executed (InsertPathway row)] |}).
    destruct (IH w1 (rows ++ [row]) eq_refl) as (w' & Hrun & Hp).
    exists w'. rewrite <- app_assoc in Hp. split; [|done].
    erewrite bind_returned; [exact Hrun|].
    unfold execute, run_stmt. rewrite Hrows. by destruct row.
Qed.

(** The gene set after a document: the set before, and the gene tokens
    of the document's records. *)
Lemma load_document_genes (file_path label : string) (root : ET.Element)
    (unique_genes : gset string) (w : World) :
  et_parse file_path = ET.Parsed root →
  Forall is_Some (entry_names root) →
  is_Some (pathways (db w)) →
  ∃ w',
    load_document et_parse unique_genes (file_path, label) w
    = (Returned
         (unique_genes ∪
          list_to_set (gene_id <$> (ET.findall root "entry" ≫= entry_records label))),
       w').
Proof.
  intros Hparse Hnamed [rows Hrows]. unfold load_document.
  destruct (insert_pathways_run
              (ET.findall root "entry" ≫= entry_records label) w rows Hrows)
    as (w' & Hrun & _).
  exists w'.
  erewrite bind_returned by (by apply parse_kgml_parsed).
  erewrite bind_returned by exact Hrun.
  apply for_each_union.
Qed.

(** C7: gene insertion is idempotent.  On a [genes] table whose keys are
    unique, inserting a list that holds an identifier (once or several
    times) returns without error, and so does inserting the list again;
    the second insertion leaves the store as the first left it, and the
    table then has exactly one row for the identifier. *)
Theorem insert_genes_idempotent (data : list string) (g : string)
    (w : World) (rows : list string) :
  genes (db w) = Some rows →
  NoDup rows →
  g ∈ data →
  ∃ w1 w2 rows',
    insert_genes data w = (Returned (), w1)
    ∧ insert_genes data w1 = (Returned (), w2)
    ∧ db w2 = db w1
    ∧ genes (db w2) = Some rows'
    ∧ length (filter (λ x, x = g) rows') = 1.
Proof.
  intros Hrows Hnd Hg.
  destruct (insert_genes_run data w rows Hrows) as (w1 & Hrun1 & Hg1 & Hp1 & Ha1).
  destruct (insert_genes_run data w1 _ Hg1) as (w2 & Hrun2 & Hg2 & Hp2 & Ha2).
  set (rows1 := foldl (λ rows g, insert_or_ignore g rows) rows data) in *.
  assert (Hsame : foldl (λ rows g, insert_or_ignore g rows) rows1 data = rows1).
  { apply foldl_insert_or_ignore_present. intros x Hx.
    apply foldl_insert_or_ignore_elem. by left. }
  rewrite Hsame in Hg2.
  exists w1, w2, rows1. repeat split; try done.
  - destruct (db w1), (db w2). simpl in *. congruence.
  - apply NoDup_occurs_once.
    + by apply foldl_insert_or_ignore_NoDup.
    + apply foldl_insert_or_ignore_elem. by left.
Qed.

(** C8: schema setup on a store that already has the three tables
    returns without error and leaves the store as it was. *)
Theorem create_tables_idempotent (w : World) :
  is_Some (genes (db w)) →
  is_Some (pathways (db w)) →
  is_Some (gene_go_associations (db w)) →
  ∃ w', create_tables w = (Returned (), w') ∧ db w' = db w.
Proof.
  destruct w as [[g p a] t]. simpl.
  intros [gs ->] [ps ->] [rs ->].
  eexists. split; reflexivity.
Qed.

(** C5: when the document cannot be opened or parsed, the extractor
    returns the empty sequence and prints a diagnostic instead of
    raising, and the loop over the documents goes on with the remaining
    ones from a store and a gene set that are unchanged. *)
Theorem parse_kgml_unreadable_recovers (file_path label e_str : string)
    (w : World) (unique_genes : gset string) (rest : list (string * string)) :
  et_parse file_path = ET.ParseFails e_str →
  let w' := {| db := db w;
               trace := trace w ++
                 [Printed ("Error parsing " +:+ file_path +:+ ": " +:+ e_str)] |} in
  parse_kgml et_parse file_path label w = (Returned [], w')
  ∧ for_each ((file_path, label) :: rest) (load_document et_parse) unique_genes w
    = for_each rest (load_document et_parse) unique_genes w'.
Proof.
  intros Hfail w'.
  assert (Hparse : parse_kgml et_parse file_path label w = (Returned [], w')).
  { unfold parse_kgml. rewrite Hfail. reflexivity. }
  split; [exact Hparse|].
  cbn [for_each]. erewrite bind_returned; [reflexivity|].
  unfold load_document. erewrite bind_returned by exact Hparse.
  reflexivity.
Qed.

End Loader.

Lemma insert_genes_idempotent_witness :
  genes (db ready_world) = Some []
  ∧ NoDup (@nil string)
  ∧ "TP53" ∈ ["TP53"; "TP53"]
  ∧ ∃ w1 w2 rows',
      insert_genes ["TP53"; "TP53"] ready_world = (Returned (), w1)
      ∧ insert_genes ["TP53"; "TP53"] w1 = (Returned (), w2)
      ∧ db w2 = db w1
      ∧ genes (db w2) = Some rows'
      ∧ length (filter (λ x, x = "TP53") rows') = 1.
Proof.
  assert (Hin : "TP53" ∈ ["TP53"; "TP53"]) by apply list_elem_of_here.
  split; [reflexivity|]. split; [apply NoDup_nil_2|]. split; [exact Hin|].
  apply (insert_genes_idempotent ["TP53"; "TP53"] "TP53" ready_world []);
    [reflexivity|apply NoDup_nil_2|exact Hin].
Defined.

Lemma create_tables_idempotent_witness :
  is_Some (genes (db ready_world))
  ∧ is_Some (pathways (db ready_world))
  ∧ is_Some (gene_go_associations (db ready_world))
  ∧ ∃ w', create_tables ready_world = (Returned (), w') ∧ db w' = db ready_world.
Proof.
  split; [by eexists|]. split; [by eexists|]. split; [by eexists|].
  apply (create_tables_idempotent ready_world); by eexists.
Defined.

Lemma parse_kgml_unreadable_recovers_witness :
  only_colorectal doc_two_genes "KEGG_data/KGML/hsa05010.xml"
  = ET.ParseFails "No such file or directory"
  ∧ let w' := {| db := empty_store;
                 trace := [Printed "Error parsing KEGG_data/KGML/hsa05010.xml: No such file or directory"] |} in
    parse_kgml (only_colorectal doc_two_genes) "KEGG_data/KGML/hsa05010.xml"
      "Alzheimer's disease" fresh_world = (Returned [], w')
    ∧ for_each [("KEGG_data/KGML/hsa05010.xml", "Alzheimer's disease");
                ("KEGG_data/KGML/hsa05210.xml", "Colorectal cancer")]
        (load_document (only_colorectal doc_two_genes)) ∅ fresh_world
      = for_each [("KEGG_data/KGML/hsa05210.xml", "Colorectal cancer")]
          (load_document (only_colorectal doc_two_genes)) ∅ w'.
Proof.
  split; [reflexivity|].
  apply (parse_kgml_unreadable_recovers (only_colorectal doc_two_genes)
           "KEGG_data/KGML/hsa05010.xml" "Alzheimer's disease"
           "No such file or directory" fresh_world ∅
           [("KEGG_data/KGML/hsa05210.xml", "Colorectal cancer")]).
  reflexivity.
Defined.

(** ** Traces of computations *)

Section Emits.

Variable P : Event → Prop.

Lemma emits_ret {A} (a : A) : emits P (mret a : M A).
Proof. intros w. exists []. by rewrite app_nil_r. Qed.

Lemma emits_raise {A} (e : Exn) : emits P (raise e : M A).
Proof. intros w. exists []. by rewrite app_nil_r. Qed.

Lemma emits_lift {A} (r : Exn + A) : emits P (lift r).
Proof. destruct r; [apply emits_raise|apply emits_ret]. Qed.

Lemma emits_bind {A B} (m : M A) (f : A → M B) :
  emits P m → (∀ a, emits P (f a)) → emits P (m ≫= f).
Proof.
  intros Hm Hf w. destruct (Hm w) as (l1 & Hl1 & HP1).
  unfold mbind, M_bind. destruct (m w) as [[a|e] w1]; simpl in *.
  - destruct (Hf a w1) as (l2 & Hl2 & HP2).
    exists (l1 ++ l2). rewrite Hl2, Hl1, <- app_assoc.
    split; [done|]. by apply Forall_app.
  - by exists l1.
Qed.

Lemma emits_for_each {A B} (xs : list B) (body : A → B → M A) (s : A) :
  (∀ s x, emits P (body s x)) → emits P (for_each xs body s).
Proof.
  intros Hbody. revert s. induction xs as [|x xs IH]; intros s; simpl.
  - apply emits_ret.
  - apply emits_bind; [apply Hbody|apply IH].
Qed.

Lemma emits_then_split {A B} (Q : Event → Prop) (m : M A) (f : A → M B) :
  emits P m → (∀ a, emits Q (f a)) → emits_then P Q (m ≫= f).
Proof.
  intros Hm Hf w. destruct (Hm w) as (l1 & Hl1 & HP1).
  unfold mbind, M_bind. destruct (m w) as [[a|e] w1]; simpl in *.
  - destruct (Hf a w1) as (l2 & Hl2 & HQ2).
    exists l1, l2. rewrite Hl2, Hl1, <- app_assoc. done.
  - exists l1, []. rewrite app_nil_r. done.
Qed.

Lemma emits_then_bind {A B} (Q : Event → Prop) (m : M A) (f : A → M B) :
  emits P m → (∀ a, emits_then P Q (f a)) → emits_then P Q (m ≫= f).
Proof.
  intros Hm Hf w. destruct (Hm w) as (l1 & Hl1 & HP1).
  unfold mbind, M_bind. destruct (m w) as [[a|e] w1]; simpl in *.
  - destruct (Hf a w1) as (l2 & l3 & Hl2 & HP2 & HQ3).
    exists (l1 ++ l2), l3. rewrite Hl2, Hl1, <- !app_assoc.
    split; [done|]. split; [by apply Forall_app|done].
  - exists l1, []. rewrite app_nil_r. done.
Qed.

End Emits.

Lemma emits_emit (P : Event → Prop) (ev : Event) : P ev → emits P (emit ev).
Proof. intros HP w. exists [ev]. split; [done|]. by constructor. Qed.

Lemma emits_execute (P : Event → Prop) (q : Stmt) :
  P (Executed q) → emits P (execute q).
Proof.
  intros HP w. unfold execute. destruct (run_stmt q (db w)); simpl.
  - exists []. by rewrite app_nil_r.
  - exists [Executed q]. split; [done|]. by constructor.
Qed.

(** Events of the first list that satisfy [P] come before events of the
    second list that satisfy [Q]. *)
Lemma all_before_app (P Q : Event → Prop) (l1 l2 : list Event) :
  Forall (λ ev, ¬ Q ev) l1 → Forall (λ ev, ¬ P ev) l2 →
  all_before P Q (l1 ++ l2).
Proof.
  intros H1 H2 i j a b Hi Hj Ha Hb.
  rewrite Forall_lookup in H1. rewrite Forall_lookup in H2.
  destruct (decide (i < length l1)) as [Hlt|Hge].
  - destruct (decide (j < length l1)) as [Hjlt|Hjge]; [|lia].
    rewrite lookup_app_l in Hj by done. by destruct (H1 j b Hj).
  - rewrite lookup_app_r in Hi by lia. by destruct (H2 _ a Hi).
Qed.

(** ** Raising and keeping *)

Lemma always_raises_bind_l {A B} (m : M A) (f : A → M B) :
  always_raises m → always_raises (m ≫= f).
Proof.
  intros Hm w. destruct (Hm w) as [e He]. exists e.
  unfold mbind, M_bind. destruct (m w) as [[a|e'] w1]; simpl in *; congruence.
Qed.

Lemma always_raises_bind_r {A B} (m : M A) (f : A → M B) :
  (∀ a, always_raises (f a)) → always_raises (m ≫= f).
Proof.
  intros Hf w. unfold mbind, M_bind. destruct (m w) as [[a|e] w1].
  - apply Hf.
  - by exists e.
Qed.

Section Keeps.

Context {X : Type}.
Variable obs : Store → X.

Lemma keeps_ret {A} (a : A) : keeps obs (mret a : M A).
Proof. by intros w. Qed.

Lemma keeps_raise {A} (e : Exn) : keeps obs (raise e : M A).
Proof. by intros w. Qed.

Lemma keeps_lift {A} (r : Exn + A) : keeps obs (lift r).
Proof. destruct r; [apply keeps_raise|apply keeps_ret]. Qed.

Lemma keeps_bind {A B} (m : M A) (f : A → M B) :
  keeps obs m → (∀ a, keeps obs (f a)) → keeps obs (m ≫= f).
Proof.
  intros Hm Hf w. specialize (Hm w).
  unfold mbind, M_bind. destruct (m w) as [[a|e] w1]; simpl in *.
  - by rewrite Hf.
  - done.
Qed.

Lemma keeps_for_each {A B} (xs : list B) (body : A → B → M A) (s : A) :
  (∀ s x, keeps obs (body s x)) → keeps obs (for_each xs body s).
Proof.
  intros Hbody. revert s. induction xs as [|x xs IH]; intros s; simpl.
  - apply keeps_ret.
  - apply keeps_bind; [apply Hbody|apply IH].
Qed.

Lemma keeps_emit (ev : Event) : keeps obs (emit ev).
Proof. by intros w. Qed.

Lemma keeps_execute (q : Stmt) :
  (∀ d d', run_stmt q d = inr d' → obs d' = obs d) → keeps obs (execute q).
Proof.
  intros Hq w. unfold execute.
  destruct (run_stmt q (db w)) as [e|d'] eqn:Hrun; simpl; [done|].
  by apply Hq.
Qed.

End Keeps.

Lemma raises_at_once_bind {A B} (m : M A) (f : A → M B) :
  raises_at_once m → raises_at_once (m ≫= f).
Proof. intros Hm w. destruct (Hm w) as [e He]. exists e. by apply bind_raised. Qed.

Lemma raises_at_once_always {A} (m : M A) : raises_at_once m → always_raises m.
Proof. intros Hm w. destruct (Hm w) as [e He]. exists e. by rewrite He. Qed.

Lemma raises_at_once_emits {A} (P : Event → Prop) (m : M A) :
  raises_at_once m → emits P m.
Proof.
  intros Hm w. destruct (Hm w) as [e He]. exists []. rewrite He, app_nil_r. done.
Qed.

Lemma raises_at_once_keeps {A X} (obs : Store → X) (m : M A) :
  raises_at_once m → keeps obs m.
Proof. intros Hm w. destruct (Hm w) as [e He]. by rewrite He. Qed.

(** One step of a proof that a computation emits only events in [P]. *)
Ltac emits_step :=
  first [ apply emits_ret | apply emits_raise | apply emits_lift
        | apply emits_emit | apply emits_execute
        | apply emits_for_each; intros
        | apply emits_bind; [|intros] ].

Ltac keeps_step :=
  first [ apply keeps_ret | apply keeps_raise | apply keeps_lift
        | apply keeps_emit
        | apply keeps_for_each; intros
        | apply keeps_bind; [|intros] ].

(** Facts about single events: which table, if any, an event writes. *)
Ltac solve_event :=
  intros; simpl; intuition (try discriminate; try done).

(** ** The run *)

Section Run.

Variable et_parse : string → ET.ParseResult.
Variable read_csv : string → pd.ReadResult.

Lemma parse_kgml_emits (P : Event → Prop) (file_path label : string) :
  (∀ line, P (Printed line)) → emits P (parse_kgml et_parse file_path label).
Proof.
  intros HP. unfold parse_kgml, print.
  destruct (et_parse file_path); repeat emits_step; try done.
  unfold split_method. destruct (ET.get _ _); emits_step.
Qed.

Lemma parse_kgml_keeps {X} (obs : Store → X) (file_path label : string) :
  keeps obs (parse_kgml et_parse file_path label).
Proof.
  unfold parse_kgml, print.
  destruct (et_parse file_path); repeat keeps_step.
  unfold split_method. destruct (ET.get _ _); keeps_step.
Qed.

Lemma insert_pathways_emits (P : Event → Prop) (data : list PathwayEntry) :
  (∀ row, P (Executed (InsertPathway row))) → emits P (insert_pathways data).
Proof. intros HP. unfold insert_pathways. repeat emits_step. done. Qed.

(** Inserting a pathway row touches the [pathways] table only. *)
Lemma insert_pathways_keeps (data : list PathwayEntry) :
  keeps genes (insert_pathways data)
  ∧ keeps gene_go_associations (insert_pathways data).
Proof.
  unfold insert_pathways.
  split; keeps_step; apply keeps_execute; intros d d'; simpl;
    destruct (pathways d); intros [= <-]; done.
Qed.

Lemma insert_genes_emits (P : Event → Prop) (data : list string) :
  (∀ g, P (Executed (InsertOrIgnoreGene g))) → emits P (insert_genes data).
Proof. intros HP. unfold insert_genes. repeat emits_step. done. Qed.

Lemma insert_genes_keeps (data : list string) :
  keeps gene_go_associations (insert_genes data).
Proof.
  unfold insert_genes.
  keeps_step; apply keeps_execute; intros d d'; simpl;
    destruct (genes d); intros [= <-]; done.
Qed.

Lemma insert_gene_go_associations_emits (P : Event → Prop) (data : pd.DataFrame) :
  (∀ g go, P (Executed (InsertGeneGo g go))) →
  emits P (insert_gene_go_associations data).
Proof. intros HP. unfold insert_gene_go_associations. repeat emits_step. done. Qed.

Lemma create_tables_emits (P : Event → Prop) :
  (∀ t, P (Executed (CreateTableIfNotExists t))) → emits P create_tables.
Proof. intros HP. unfold create_tables. repeat emits_step; done. Qed.

(** Schema setup always returns; it creates the tables that are absent. *)
Lemma create_tables_run (w : World) :
  create_tables w
  = (Returned (),
     {| db := {| genes := create_if_absent (genes (db w));
                 pathways := create_if_absent (pathways (db w));
                 gene_go_associations :=
                   create_if_absent (gene_go_associations (db w)) |};
        trace := trace w ++
          [Executed (CreateTableIfNotExists genes_t);
           Executed (CreateTableIfNotExists pathways_t);
           Executed (CreateTableIfNotExists gene_go_associations_t)] |}).
Proof.
  unfold create_tables, mbind, M_bind, execute. simpl.
  by rewrite <- !app_assoc.
Qed.

Lemma load_document_emits (P : Event → Prop) (unique_genes : gset string)
    (doc : string * string) :
  (∀ line, P (Printed line)) →
  (∀ row, P (Executed (InsertPathway row))) →
  emits P (load_document et_parse unique_genes doc).
Proof.
  intros Hprint Hrow. destruct doc as [file_path label]. unfold load_document.
  emits_step; [by apply parse_kgml_emits|].
  emits_step; [by apply insert_pathways_emits|].
  repeat emits_step.
Qed.

Lemma load_document_keeps (unique_genes : gset string) (doc : string * string) :
  keeps gene_go_associations (load_document et_parse unique_genes doc).
Proof.
  destruct doc as [file_path label]. unfold load_document.
  keeps_step; [apply parse_kgml_keeps|].
  keeps_step; [apply insert_pathways_keeps|].
  repeat keeps_step.
Qed.

Lemma parse_gaf_emits (P : Event → Prop) (file_path : string) :
  emits P (parse_gaf read_csv file_path).
Proof.
  unfold parse_gaf. destruct (read_csv file_path); repeat emits_step.
Qed.

(** An invalid annotation source makes [parse_gaf] raise, with nothing
    printed or written. *)
Lemma parse_gaf_invalid_raises (file_path : string) :
  gaf_invalid (read_csv file_path) →
  raises_at_once (parse_gaf read_csv file_path).
Proof.
  intros Hinv w. unfold parse_gaf.
  destruct (read_csv file_path) as [e_str|width rows]; simpl in Hinv.
  - by eexists.
  - eexists. apply bind_raised.
    unfold pd.set_columns, pd.positional. simpl.
    rewrite length_fmap, length_seq.
    rewrite decide_False by (intros Heq; apply Hinv; vm_compute in Heq; congruence).
    reflexivity.
Qed.

(** C10: [insert_pathways] leaves the [genes] and the
    [gene_go_associations] tables as they were, for every list of
    records and every store, whether it returns or raises. *)
Theorem insert_pathways_frame (data : list PathwayEntry) (w : World) :
  genes (db (insert_pathways data w).2) = genes (db w)
  ∧ gene_go_associations (db (insert_pathways data w).2)
    = gene_go_associations (db w).
Proof.
  destruct (insert_pathways_keeps data) as [Hg Ha].
  split; [apply Hg|apply Ha].
Qed.

(** The run emits events without a gene insert, then events without a
    pathway insert. *)
Lemma main_two_phases :
  emits_then (λ ev, ¬ writes_to genes_t ev) (λ ev, ¬ writes_to pathways_t ev)
    (main et_parse read_csv).
Proof.
  unfold main.
  apply emits_then_bind; [apply create_tables_emits; solve_event|intros _].
  apply emits_then_split.
  - apply emits_for_each. intros s doc.
    apply load_document_emits; solve_event.
  - intros unique_genes.
    emits_step; [apply insert_genes_emits; solve_event|].
    emits_step; [apply parse_gaf_emits|].
    emits_step; [apply insert_gene_go_associations_emits; solve_event|].
    repeat emits_step; solve_event.
Qed.

(** C3 (as amended): in every run, every insert into the [pathways]
    table is executed before any insert into the [genes] table: the
    pathway rows are written document by document inside the loop, the
    genes after it. *)
Theorem main_pathways_before_genes (d : Store) :
  all_before (writes_to pathways_t) (writes_to genes_t)
    (trace (run_main et_parse read_csv d).2).
Proof.
  unfold run_main.
  destruct (main_two_phases {| db := d; trace := [] |})
    as (l1 & l2 & Htrace & H1 & H2).
  rewrite Htrace. simpl. by apply all_before_app.
Qed.

(** C6 (as amended): when the annotation source cannot be read (it is
    missing, say) or its table does not have seventeen columns,
    [parse_gaf] raises and returns no frame, and the run ends with an
    exception before any annotation row is written and without a
    commit. *)
Theorem parse_gaf_invalid_aborts (d : Store) :
  gaf_invalid (read_csv "goa_human.gaf") →
  (∀ w, ∃ e, parse_gaf read_csv "goa_human.gaf" w = (Raised e, w))
  ∧ (∃ e, (run_main et_parse read_csv d).1 = Raised e)
  ∧ Forall (λ ev, ¬ writes_to gene_go_associations_t ev ∧ ev ≠ Committed)
      (trace (run_main et_parse read_csv d).2)
  ∧ gene_go_associations (db (run_main et_parse read_csv d).2)
    = create_if_absent (gene_go_associations d).
Proof.
  intros Hinv.
  pose proof (parse_gaf_invalid_raises "goa_human.gaf" Hinv) as Hraise.
  split; [exact Hraise|]. unfold run_main, main. split; [|split].
  - apply always_raises_bind_r. intros _.
    apply always_raises_bind_r. intros unique_genes.
    apply always_raises_bind_r. intros _.
    by apply raises_at_once_always, raises_at_once_bind.
  - match goal with |- Forall ?P (trace (?m ?w).2) =>
      assert (emits P m) as Hemits end.
    { emits_step; [apply create_tables_emits; solve_event|].
      emits_step.
      { apply emits_for_each. intros s doc.
        apply load_document_emits; solve_event. }
      emits_step; [apply insert_genes_emits; solve_event|].
      by apply raises_at_once_emits, raises_at_once_bind. }
    destruct (Hemits {| db := d; trace := [] |}) as (l & Hl & HP).
    by rewrite Hl.
  - erewrite bind_returned by apply create_tables_run.
    match goal with |- ?obs (db (?m ?w).2) = _ =>
      assert (keeps obs m) as Hkeeps end.
    { keeps_step.
      { apply keeps_for_each. intros s doc. apply load_document_keeps. }
      keeps_step; [apply insert_genes_keeps|].
      by apply raises_at_once_keeps, raises_at_once_bind. }
    by rewrite Hkeeps.
Qed.

End Run.

(** C3 as stated fails: on a fresh store and a document with one entry,
    the insert into [pathways] at position 6 of the trace precedes the
    insert into [genes] at position 8. *)
Lemma main_genes_before_pathways_counterexample :
  ¬ all_before (writes_to genes_t) (writes_to pathways_t)
      (trace (run_main (only_colorectal doc_two_genes) gaf_duplicate_pair
                empty_store).2).
Proof.
  intros Hbefore.
  assert (8 < 6) as Hlt; [|lia].
  eapply (Hbefore 8 6).
  - vm_compute. reflexivity.
  - vm_compute. reflexivity.
  - reflexivity.
  - reflexivity.
Qed.

Lemma parse_gaf_invalid_aborts_witness :
  gaf_invalid (gaf_sixteen "goa_human.gaf")
  ∧ (∀ w, ∃ e, parse_gaf gaf_sixteen "goa_human.gaf" w = (Raised e, w))
  ∧ (∃ e, (run_main (only_colorectal doc_two_genes) gaf_sixteen empty_store).1
          = Raised e)
  ∧ Forall (λ ev, ¬ writes_to gene_go_associations_t ev ∧ ev ≠ Committed)
      (trace (run_main (only_colorectal doc_two_genes) gaf_sixteen empty_store).2)
  ∧ gene_go_associations
      (db (run_main (only_colorectal doc_two_genes) gaf_sixteen empty_store).2)
    = create_if_absent (gene_go_associations empty_store).
Proof.
  assert (Hinv : gaf_invalid (gaf_sixteen "goa_human.gaf")) by (simpl; lia).
  split; [exact Hinv|].
  apply (parse_gaf_invalid_aborts (only_colorectal doc_two_genes) gaf_sixteen
           empty_store Hinv).
Defined.

(** C6 as stated fails: a source with a line of two fields, a column-count
    mismatch against the seventeen-column layout, is not refused.
    [parse_gaf] returns a frame whose second record is ([NaN], [NaN]), and
    the run returns: that record is inserted at position 11 of the trace
    and the commit follows at position 12. *)
Lemma parse_gaf_short_line_counterexample :
  length short_line < 17
  ∧ parse_gaf gaf_short_line "goa_human.gaf" fresh_world
    = (Returned {| pd.columns := [pd.Name "DB_Object_Symbol"; pd.Name "GO_ID"];
                   pd.data := [ [pd.Str "TP53"; pd.Str "GO:0006915"];
                                [pd.NaN; pd.NaN] ] |},
       fresh_world)
  ∧ (run_main (only_colorectal doc_two_genes) gaf_short_line empty_store).1
    = Returned ()
  ∧ trace (run_main (only_colorectal doc_two_genes) gaf_short_line empty_store).2
      !! 11 = Some (Executed (InsertGeneGo pd.NaN pd.NaN))
  ∧ trace (run_main (only_colorectal doc_two_genes) gaf_short_line empty_store).2
      !! 12 = Some Committed
  ∧ gene_go_associations
      (db (run_main (only_colorectal doc_two_genes) gaf_short_line empty_store).2)
    = Some [ (pd.Str "TP53", pd.Str "GO:0006915"); (pd.NaN, pd.NaN) ].
Proof.
  split; [simpl; lia|].
  repeat split; vm_compute; reflexivity.
Qed.

(** ** The annotation extractor *)

(** The rows kept by [drop_duplicates] are the rows not seen before. *)
Lemma unmarked_duplicated_elem (seen rows : list (list pd.Cell)) (r : list pd.Cell) :
  r ∈ pd.unmarked (pd.duplicated seen rows) rows ↔ r ∈ rows ∧ r ∉ seen.
Proof.
  revert seen. induction rows as [|x rows IH]; intros seen; simpl.
  - rewrite elem_of_nil. tauto.
  - destruct (bool_decide (x ∈ seen)) eqn:Hx.
    + apply bool_decide_eq_true in Hx.
      rewrite IH, !elem_of_cons.
      split; [tauto|]. intros [[->|Hr] Hnin]; [done|].
      split; [done|]. by intros [->|?].
    + apply bool_decide_eq_false in Hx.
      rewrite !elem_of_cons, IH, elem_of_cons.
      split.
      * intros [->|(Hr & Hnin)]; tauto.
      * intros [[->|Hr] Hnin]; [by left|].
        destruct (decide (r = x)) as [->|Hne]; [by left|]. right. tauto.
Qed.

Lemma unmarked_duplicated_NoDup (seen rows : list (list pd.Cell)) :
  NoDup (pd.unmarked (pd.duplicated seen rows) rows).
Proof.
  revert seen. induction rows as [|x rows IH]; intros seen; simpl.
  - apply NoDup_nil_2.
  - destruct (bool_decide (x ∈ seen)); [apply IH|].
    apply NoDup_cons. split; [|apply IH].
    rewrite unmarked_duplicated_elem, elem_of_cons. tauto.
Qed.

Section Annotations.

Variable read_csv : string → pd.ReadResult.

(** What [parse_gaf] returns for a table of seventeen columns. *)
Lemma parse_gaf_run (file_path : string) (rows : list (list pd.Cell))
    (w : World) :
  read_csv file_path = pd.ReadFrame 17 rows →
  parse_gaf read_csv file_path w
  = (Returned
       (pd.drop_duplicates
          {| pd.columns := [pd.Name "DB_Object_Symbol"; pd.Name "GO_ID"];
             pd.data := (λ row, [nth 2 row pd.NaN; nth 4 row pd.NaN]) <$> rows |}),
     w).
Proof. intros Hread. unfold parse_gaf. rewrite Hread. reflexivity. Qed.

(** C4: for a table of seventeen columns [parse_gaf] returns a frame in
    which no two records are equal, each record being the (gene symbol,
    term id) pair of a source row and each source row's pair being
    present, whatever the other columns hold. *)
Theorem parse_gaf_no_duplicates (file_path : string)
    (rows : list (list pd.Cell)) (w : World) :
  read_csv file_path = pd.ReadFrame 17 rows →
  ∃ df,
    parse_gaf read_csv file_path w = (Returned df, w)
    ∧ NoDup (pd.data df)
    ∧ ∀ r, r ∈ pd.data df ↔
           ∃ row, row ∈ rows ∧ r = [nth 2 row pd.NaN; nth 4 row pd.NaN].
Proof.
  intros Hread. eexists. split; [by apply parse_gaf_run|].
  unfold pd.drop_duplicates. cbn [pd.data].
  split; [apply unmarked_duplicated_NoDup|].
  intros r. rewrite unmarked_duplicated_elem, list_elem_of_fmap, elem_of_nil.
  split.
  - intros [(row & -> & Hrow) _]. by exists row.
  - intros (row & Hrow & ->). split; [by exists row|tauto].
Qed.

End Annotations.

Lemma parse_gaf_no_duplicates_witness :
  gaf_duplicate_pair "goa_human.gaf"
  = pd.ReadFrame 17 [ gaf_row "TP53" "GO:0006915" "x";
                      gaf_row "TP53" "GO:0006915" "y" ]
  ∧ ∃ df,
      parse_gaf gaf_duplicate_pair "goa_human.gaf" fresh_world
      = (Returned df, fresh_world)
      ∧ NoDup (pd.data df)
      ∧ ∀ r, r ∈ pd.data df ↔
             ∃ row, row ∈ [ gaf_row "TP53" "GO:0006915" "x";
                            gaf_row "TP53" "GO:0006915" "y" ]
                    ∧ r = [nth 2 row pd.NaN; nth 4 row pd.NaN].
Proof.
  split; [reflexivity|].
  apply (parse_gaf_no_duplicates gaf_duplicate_pair "goa_human.gaf"
           [ gaf_row "TP53" "GO:0006915" "x"; gaf_row "TP53" "GO:0006915" "y" ]
           fresh_world).
  reflexivity.
Defined.

(** The scenario of the specification: two rows with one pair give one
    record. *)
Example parse_gaf_duplicate_pair_once :
  (parse_gaf gaf_duplicate_pair "goa_human.gaf" fresh_world).1
  = Returned {| pd.columns := [pd.Name "DB_Object_Symbol"; pd.Name "GO_ID"];
                pd.data := [[pd.Str "TP53"; pd.Str "GO:0006915"]] |}.
Proof. vm_compute. reflexivity. Qed.

(** * Further properties of the code *)

(** ** The extractor, continued *)

Lemma bind_ext_r {A B} (m : M A) (f g : A → M B) (w : World) :
  (∀ a w', f a w' = g a w') → (m ≫= f) w = (m ≫= g) w.
Proof.
  intros Hfg. unfold mbind, M_bind. destruct (m w) as [[a|e] w']; [apply Hfg|done].
Qed.

(** The loop over the entries reads nothing but the id, name and type of
    each entry. *)
Lemma parse_kgml_loop_view (label : string) (es es' : list ET.Element) :
  entry_view <$> es = entry_view <$> es' →
  ∀ (acc : list PathwayEntry) (w : World),
    for_each es
      (λ pathways entry,
         gene_names ← split_method (ET.get entry "name") " ";
         for_each gene_names
           (λ pathways gene_name,
              mret (pathways ++ [ {| entry_id := ET.get entry "id";
                                     gene_id := gene_name;
                                     entry_type := ET.get entry "type";
                                     disease := label |} ]))
           pathways)
      acc w
    = for_each es'
        (λ pathways entry,
           gene_names ← split_method (ET.get entry "name") " ";
           for_each gene_names
             (λ pathways gene_name,
                mret (pathways ++ [ {| entry_id := ET.get entry "id";
                                       gene_id := gene_name;
                                       entry_type := ET.get entry "type";
                                       disease := label |} ]))
             pathways)
        acc w.
Proof.
  revert es'. induction es as [|e es IH]; intros [|e' es'] Hview acc w;
    try done.
  rewrite !fmap_cons in Hview. injection Hview as Hid Hname Htype Hrest.
  cbn [for_each]. rewrite Hid, Hname, Htype.
  apply bind_ext_r. intros s w'. by apply IH.
Qed.

(** X1: the records come in document order: the records of the first
    entry, then those of the second, and so on, each entry giving one
    record per piece of its name, in the order of the pieces. *)
Theorem parse_kgml_in_document_order (et_parse : string → ET.ParseResult)
    (file_path label : string) (root : ET.Element) (w : World) :
  et_parse file_path = ET.Parsed root →
  Forall is_Some (entry_names root) →
  parse_kgml et_parse file_path label w
  = (Returned
       (concat
          ((λ e, (λ g, {| entry_id := ET.get e "id";
                          gene_id := g;
                          entry_type := ET.get e "type";
                          disease := label |})
                   <$> str_split " " (default EmptyString (ET.get e "name")))
             <$> ET.findall root "entry")),
     w).
Proof.
  intros Hparse Hnamed. rewrite (parse_kgml_parsed _ _ _ root) by done.
  f_equal. f_equal.
  induction (ET.findall root "entry") as [|e es IH]; [done|].
  rewrite bind_cons, fmap_cons, concat_cons. by rewrite IH.
Qed.

Lemma parse_kgml_in_document_order_witness :
  Forall is_Some (entry_names doc_two_genes)
  ∧ parse_kgml (only_colorectal doc_two_genes) "KEGG_data/KGML/hsa05210.xml"
      "Colorectal cancer" fresh_world
    = (Returned
         (concat
            ((λ e, (λ g, {| entry_id := ET.get e "id";
                            gene_id := g;
                            entry_type := ET.get e "type";
                            disease := "Colorectal cancer" |})
                     <$> str_split " " (default EmptyString (ET.get e "name")))
               <$> ET.findall doc_two_genes "entry")),
       fresh_world).
Proof.
  assert (Hnamed : Forall is_Some (entry_names doc_two_genes)).
  { vm_compute. repeat constructor. by eexists. }
  split; [exact Hnamed|].
  apply (parse_kgml_in_document_order (only_colorectal doc_two_genes)
           "KEGG_data/KGML/hsa05210.xml" "Colorectal cancer" doc_two_genes
           fresh_world); [reflexivity|exact Hnamed].
Defined.

(** X2: no gene token the extractor returns contains a space. *)
Theorem parse_kgml_tokens_without_space (et_parse : string → ET.ParseResult)
    (file_path label : string) (w w' : World) (recs : list PathwayEntry) :
  parse_kgml et_parse file_path label w = (Returned recs, w') →
  Forall (λ r, str_count " " (gene_id r) = 0) recs.
Proof.
  unfold parse_kgml. destruct (et_parse file_path) as [e_str|root].
  { intros [= <- _]. constructor. }
  match goal with
  | |- for_each ?es ?body _ _ = _ → _ =>
      enough (∀ acc recs, Forall (λ r, str_count " " (gene_id r) = 0) acc →
                for_each es body acc w = (Returned recs, w') →
                Forall (λ r, str_count " " (gene_id r) = 0) recs)
        as Hloop by (apply Hloop; constructor)
  end.
  induction (ET.findall root "entry") as [|e es IH]; intros acc recs0 Hacc;
    cbn [for_each].
  - by intros [= <- _].
  - destruct (ET.get e "name") as [name|] eqn:Hname; cbn [split_method].
    + erewrite bind_returned;
        [|erewrite bind_returned by reflexivity; apply for_each_append].
      apply IH. apply Forall_app. split; [done|].
      apply Forall_fmap, Forall_forall. intros g Hg. simpl.
      by apply (str_split_no_sep " " name).
    + erewrite bind_raised by (by erewrite bind_raised). done.
Qed.

Lemma parse_kgml_tokens_without_space_witness :
  ∃ recs,
    parse_kgml (only_colorectal doc_double_space) "KEGG_data/KGML/hsa05210.xml"
      "Colorectal cancer" fresh_world = (Returned recs, fresh_world)
    ∧ Forall (λ r, str_count " " (gene_id r) = 0) recs.
Proof.
  eexists. split; [vm_compute; reflexivity|].
  apply (parse_kgml_tokens_without_space (only_colorectal doc_double_space)
           "KEGG_data/KGML/hsa05210.xml" "Colorectal cancer"
           fresh_world fresh_world).
  vm_compute. reflexivity.
Defined.

(** X3: the extractor reads only the id, name and type of the root's
    direct entry children.  Two documents that agree on these give the
    same result: the root's own tag and attributes, elements with another
    tag, further attributes and everything nested deeper play no part. *)
Theorem parse_kgml_reads_entry_views (et_parse et_parse' : string → ET.ParseResult)
    (file_path label : string) (root root' : ET.Element) (w : World) :
  et_parse file_path = ET.Parsed root →
  et_parse' file_path = ET.Parsed root' →
  entry_view <$> ET.findall root "entry" = entry_view <$> ET.findall root' "entry" →
  parse_kgml et_parse file_path label w = parse_kgml et_parse' file_path label w.
Proof.
  intros Hparse Hparse' Hview. unfold parse_kgml. rewrite Hparse, Hparse'.
  by apply parse_kgml_loop_view.
Qed.

Lemma parse_kgml_reads_entry_views_witness :
  entry_view <$> ET.findall doc_two_genes_full "entry"
  = entry_view <$> ET.findall doc_two_genes "entry"
  ∧ parse_kgml (only_colorectal doc_two_genes_full) "KEGG_data/KGML/hsa05210.xml"
      "Colorectal cancer" fresh_world
    = parse_kgml (only_colorectal doc_two_genes) "KEGG_data/KGML/hsa05210.xml"
        "Colorectal cancer" fresh_world.
Proof.
  assert (Hview : entry_view <$> ET.findall doc_two_genes_full "entry"
                  = entry_view <$> ET.findall doc_two_genes "entry")
    by (vm_compute; reflexivity).
  split; [exact Hview|].
  apply (parse_kgml_reads_entry_views (only_colorectal doc_two_genes_full)
           (only_colorectal doc_two_genes) "KEGG_data/KGML/hsa05210.xml"
           "Colorectal cancer" doc_two_genes_full doc_two_genes fresh_world);
    [reflexivity|reflexivity|exact Hview].
Defined.

(** X4: the extractor never writes to the store, whatever the file holds
    and whether it returns or raises. *)
Theorem parse_kgml_store_unchanged (et_parse : string → ET.ParseResult)
    (file_path label : string) (w : World) :
  db (parse_kgml et_parse file_path label w).2 = db w.
Proof. apply (parse_kgml_keeps et_parse id). Qed.

(** ** The annotation extractor, continued *)

Lemma unmarked_duplicated_sublist (seen rows : list (list pd.Cell)) :
  pd.unmarked (pd.duplicated seen rows) rows `sublist_of` rows.
Proof.
  revert seen. induction rows as [|x rows IH]; intros seen; simpl.
  - constructor.
  - destruct (bool_decide (x ∈ seen)).
    + apply sublist_cons, IH.
    + apply sublist_skip, IH.
Qed.

(** Marking depends on the rows seen only as a set. *)
Lemma unmarked_duplicated_seen (seen seen' rows : list (list pd.Cell)) :
  (∀ r, r ∈ seen ↔ r ∈ seen') →
  pd.unmarked (pd.duplicated seen rows) rows
  = pd.unmarked (pd.duplicated seen' rows) rows.
Proof.
  revert seen seen'. induction rows as [|x rows IH]; intros seen seen' Hsame;
    simpl; [done|].
  rewrite (bool_decide_ext (x ∈ seen) (x ∈ seen')) by apply Hsame.
  rewrite (IH (x :: seen) (x :: seen')); [done|].
  intros r. rewrite !elem_of_cons, Hsame. done.
Qed.

Lemma unmarked_duplicated_app (seen rows1 rows2 : list (list pd.Cell)) :
  pd.unmarked (pd.duplicated seen (rows1 ++ rows2)) (rows1 ++ rows2)
  = pd.unmarked (pd.duplicated seen rows1) rows1
    ++ pd.unmarked (pd.duplicated (rows1 ++ seen) rows2) rows2.
Proof.
  revert seen. induction rows1 as [|x rows1 IH]; intros seen; simpl; [done|].
  rewrite IH.
  rewrite (unmarked_duplicated_seen (rows1 ++ x :: seen) (x :: rows1 ++ seen) rows2).
  - by destruct (bool_decide (x ∈ seen)).
  - intros r. rewrite !elem_of_app, !elem_of_cons, elem_of_app. tauto.
Qed.

Lemma unmarked_duplicated_distinct (seen rows : list (list pd.Cell)) :
  NoDup rows → (∀ r, r ∈ rows → r ∉ seen) →
  pd.unmarked (pd.duplicated seen rows) rows = rows.
Proof.
  intros Hnd. revert seen. induction Hnd as [|x rows Hx Hnd IH]; intros seen Hseen;
    simpl; [done|].
  rewrite bool_decide_eq_false_2 by (apply Hseen; left).
  rewrite IH; [done|].
  intros r Hr [->|Hin]%elem_of_cons; [done|].
  by apply (Hseen r); [right|].
Qed.

Section AnnotationsMore.

Variable read_csv : string → pd.ReadResult.

(** X5: the annotation extractor changes nothing: it prints nothing and
  leaves the store alone, whether it returns or raises. *)
Theorem parse_gaf_world_unchanged (file_path : string) (w : World) :
(parse_gaf read_csv file_path w).2 = w.
Proof.
unfold parse_gaf. destruct (read_csv file_path) as [e_str|width rows]; [done|].
unfold mbind, M_bind.
destruct (pd.set_columns _ _) as [e|gaf_df]; [done|]. simpl.
destruct (pd.select _ _); done.
Qed.

(** X6: the records come in table order: the frame returned is the list
  of the rows' pairs with some occurrences removed, nothing reordered. *)
Theorem parse_gaf_keeps_order (file_path : string)
  (rows : list (list pd.Cell)) (w : World) :
read_csv file_path = pd.ReadFrame 17 rows →
∃ df,
  parse_gaf read_csv file_path w = (Returned df, w)
  ∧ pd.columns df = [pd.Name "DB_Object_Symbol"; pd.Name "GO_ID"]
  ∧ pd.data df `sublist_of` gaf_pairs rows.
Proof.
intros Hread. eexists. split; [by apply parse_gaf_run|].
split; [done|]. apply unmarked_duplicated_sublist.
Qed.

(** X8: a table whose pairs are all different is returned whole: one
  record per row. *)
Theorem parse_gaf_distinct_unchanged (file_path : string)
  (rows : list (list pd.Cell)) (w : World) :
read_csv file_path = pd.ReadFrame 17 rows →
NoDup (gaf_pairs rows) →
∃ df,
  parse_gaf read_csv file_path w = (Returned df, w)
  ∧ pd.data df = gaf_pairs rows.
Proof.
intros Hread Hnd. eexists. split; [by apply parse_gaf_run|].
unfold pd.drop_duplicates. cbn [pd.data].
apply unmarked_duplicated_distinct; [done|].
intros r _. apply not_elem_of_nil.
Qed.

End AnnotationsMore.

(** X7: the first occurrence of a pair is the one kept: the records of a
    table are the first records of any table that continues it with
    further rows. *)
Theorem parse_gaf_prefix_stable (read_csv read_csv' : string → pd.ReadResult)
    (file_path : string) (rows more : list (list pd.Cell)) (w : World) :
  read_csv file_path = pd.ReadFrame 17 rows →
  read_csv' file_path = pd.ReadFrame 17 (rows ++ more) →
  ∃ df df',
    parse_gaf read_csv file_path w = (Returned df, w)
    ∧ parse_gaf read_csv' file_path w = (Returned df', w)
    ∧ pd.data df `prefix_of` pd.data df'.
Proof.
  intros Hread Hread'. eexists _, _.
  split; [by apply parse_gaf_run|]. split; [by apply parse_gaf_run|].
  unfold pd.drop_duplicates. cbn [pd.data].
  rewrite fmap_app, unmarked_duplicated_app. by eexists.
Qed.

Lemma parse_gaf_keeps_order_witness :
  gaf_three_rows "goa_human.gaf"
  = pd.ReadFrame 17 [ gaf_row "TP53" "GO:0006915" "x";
                      gaf_row "TP53" "GO:0006915" "y";
                      gaf_row "BRCA1" "GO:0006281" "z" ]
  ∧ ∃ df,
      parse_gaf gaf_three_rows "goa_human.gaf" fresh_world = (Returned df, fresh_world)
      ∧ pd.columns df = [pd.Name "DB_Object_Symbol"; pd.Name "GO_ID"]
      ∧ pd.data df `sublist_of`
          gaf_pairs [ gaf_row "TP53" "GO:0006915" "x";
                      gaf_row "TP53" "GO:0006915" "y";
                      gaf_row "BRCA1" "GO:0006281" "z" ].
Proof.
  split; [reflexivity|].
  apply (parse_gaf_keeps_order gaf_three_rows "goa_human.gaf" _ fresh_world).
  reflexivity.
Defined.

Lemma parse_gaf_distinct_unchanged_witness :
  NoDup (gaf_pairs [ gaf_row "TP53" "GO:0006915" "x";
                     gaf_row "BRCA1" "GO:0006281" "z" ])
  ∧ ∃ df,
      parse_gaf gaf_distinct "goa_human.gaf" fresh_world = (Returned df, fresh_world)
      ∧ pd.data df = gaf_pairs [ gaf_row "TP53" "GO:0006915" "x";
                                 gaf_row "BRCA1" "GO:0006281" "z" ].
Proof.
  assert (Hnd : NoDup (gaf_pairs [ gaf_row "TP53" "GO:0006915" "x";
                                   gaf_row "BRCA1" "GO:0006281" "z" ])).
  { apply (bool_decide_unpack _). vm_compute. exact I. }
  split; [exact Hnd|].
  apply (parse_gaf_distinct_unchanged gaf_distinct "goa_human.gaf" _ fresh_world);
    [reflexivity|exact Hnd].
Defined.

Lemma parse_gaf_prefix_stable_witness :
  ∃ df df',
    parse_gaf gaf_duplicate_pair "goa_human.gaf" fresh_world = (Returned df, fresh_world)
    ∧ parse_gaf gaf_three_rows "goa_human.gaf" fresh_world = (Returned df', fresh_world)
    ∧ pd.data df `prefix_of` pd.data df'.
Proof.
  apply (parse_gaf_prefix_stable gaf_duplicate_pair gaf_three_rows "goa_human.gaf"
           [ gaf_row "TP53" "GO:0006915" "x"; gaf_row "TP53" "GO:0006915" "y" ]
           [ gaf_row "BRCA1" "GO:0006281" "z" ] fresh_world);
    reflexivity.
Defined.

(** ** The loader, continued *)

Lemma foldl_insert_or_ignore_prefix (data rows : list string) :
  rows `prefix_of` foldl (λ rows g, insert_or_ignore g rows) rows data.
Proof.
  revert rows. induction data as [|g data IH]; intros rows; simpl; [done|].
  etrans; [|apply IH].
  unfold insert_or_ignore. destruct (decide (g ∈ rows)); [done|].
  by apply prefix_app_r.
Qed.

(** [insert_gene_go_associations] on an existing table, for a frame that
    has the two columns: it returns and appends one row per record. *)
Lemma insert_gene_go_associations_run (df : pd.DataFrame) (i j : nat)
    (w : World) (old : list (pd.Cell * pd.Cell)) :
  pd.index_of (pd.Name "DB_Object_Symbol") (pd.columns df) = Some i →
  pd.index_of (pd.Name "GO_ID") (pd.columns df) = Some j →
  gene_go_associations (db w) = Some old →
  ∃ w',
    insert_gene_go_associations df w = (Returned (), w')
    ∧ gene_go_associations (db w')
      = Some (old ++ ((λ row, (nth i row pd.NaN, nth j row pd.NaN)) <$> pd.data df))
    ∧ genes (db w') = genes (db w)
    ∧ pathways (db w') = pathways (db w).
Proof.
  intros Hi Hj. unfold insert_gene_go_associations, pd.loc. rewrite Hi, Hj.
  revert w old. generalize (pd.data df) as rows.
  induction rows as [|row rows IH]; intros w old Hold; cbn [for_each].
  - exists w. by rewrite app_nil_r.
  - set (w1 := {| db := {| genes := genes (db w);
                          pathways := pathways (db w);
                          gene_go_associations :=
                            Some (old ++ [(nth i row pd.NaN, nth j row pd.NaN)]) |};
                  trace := trace w ++
                    [Executed (InsertGeneGo (nth i row pd.NaN) (nth j row pd.NaN))] |}).
    destruct (IH w1 _ eq_refl) as (w' & Hrun & Ha & Hg & Hp).
    exists w'. rewrite fmap_cons, cons_middle, app_assoc. split; [|done].
    erewrite bind_returned; [exact Hrun|].
    erewrite bind_returned by reflexivity.
    erewrite bind_returned by reflexivity.
    unfold execute, run_stmt. by rewrite Hold.
Qed.

Section LoaderMore.

Variable read_csv : string → pd.ReadResult.

(** X9: extraction followed by loading: for a table of seventeen columns
  and an existing [gene_go_associations] table, the records [parse_gaf]
  returns are appended to the table, one row per record and in order;
  the other two tables stay as they were. *)
Theorem annotations_loaded_in_order (file_path : string)
  (rows : list (list pd.Cell)) (w : World) (old : list (pd.Cell * pd.Cell)) :
read_csv file_path = pd.ReadFrame 17 rows →
gene_go_associations (db w) = Some old →
∃ df w',
  parse_gaf read_csv file_path w = (Returned df, w)
  ∧ insert_gene_go_associations df w = (Returned (), w')
  ∧ gene_go_associations (db w') = Some (old ++ (record_tuple <$> pd.data df))
  ∧ genes (db w') = genes (db w)
  ∧ pathways (db w') = pathways (db w).
Proof.
intros Hread Hold.
eexists. 
edestruct (insert_gene_go_associations_run
             (pd.drop_duplicates
                {| pd.columns := [pd.Name "DB_Object_Symbol"; pd.Name "GO_ID"];
                   pd.data := gaf_pairs rows |}) 0 1 w old)
  as (w' & Hrun & Ha & Hg & Hp); [reflexivity|reflexivity|exact Hold|].
exists w'. split; [by apply parse_gaf_run|]. done.
Qed.

End LoaderMore.

Lemma annotations_loaded_in_order_witness :
  gaf_three_rows "goa_human.gaf"
  = pd.ReadFrame 17 [ gaf_row "TP53" "GO:0006915" "x";
                      gaf_row "TP53" "GO:0006915" "y";
                      gaf_row "BRCA1" "GO:0006281" "z" ]
  ∧ gene_go_associations (db ready_world) = Some []
  ∧ ∃ df w',
      parse_gaf gaf_three_rows "goa_human.gaf" ready_world = (Returned df, ready_world)
      ∧ insert_gene_go_associations df ready_world = (Returned (), w')
      ∧ gene_go_associations (db w') = Some ([] ++ (record_tuple <$> pd.data df))
      ∧ genes (db w') = genes (db ready_world)
      ∧ pathways (db w') = pathways (db ready_world).
Proof.
  split; [reflexivity|]. split; [reflexivity|].
  apply (annotations_loaded_in_order gaf_three_rows "goa_human.gaf"
           [ gaf_row "TP53" "GO:0006915" "x"; gaf_row "TP53" "GO:0006915" "y";
             gaf_row "BRCA1" "GO:0006281" "z" ] ready_world []);
    reflexivity.
Defined.

(** X10: [insert_gene_go_associations] leaves the [genes] and the
    [pathways] tables as they were, for every frame and every store,
    whether it returns or raises. *)
Theorem insert_gene_go_associations_frame (df : pd.DataFrame) (w : World) :
  genes (db (insert_gene_go_associations df w).2) = genes (db w)
  ∧ pathways (db (insert_gene_go_associations df w).2) = pathways (db w).
Proof.
  assert (keeps (λ d, (genes d, pathways d)) (insert_gene_go_associations df))
    as Hkeeps.
  { unfold insert_gene_go_associations.
    keeps_step. keeps_step; [apply keeps_lift|].
    keeps_step; [apply keeps_lift|].
    apply keeps_execute. intros d d'. simpl.
    destruct (gene_go_associations d); intros [= <-]; done. }
  specialize (Hkeeps w). simpl in Hkeeps. by injection Hkeeps.
Qed.

(** X11: a frame that has a record but no gene symbol column makes
    [insert_gene_go_associations] raise [KeyError] at the first record,
    before anything is written. *)
Theorem insert_gene_go_associations_missing_column (df : pd.DataFrame)
    (row : list pd.Cell) (rest : list (list pd.Cell)) (w : World) :
  pd.index_of (pd.Name "DB_Object_Symbol") (pd.columns df) = None →
  pd.data df = row :: rest →
  insert_gene_go_associations df w = (Raised (KeyError "DB_Object_Symbol"), w).
Proof.
  intros Hcol Hdata. unfold insert_gene_go_associations. rewrite Hdata.
  cbn [for_each]. unfold pd.loc. rewrite Hcol.
  erewrite bind_raised; [done|]. by erewrite bind_raised.
Qed.

Lemma insert_gene_go_associations_missing_column_witness :
  pd.index_of (pd.Name "DB_Object_Symbol") (pd.columns frame_without_symbol) = None
  ∧ pd.data frame_without_symbol = [[pd.Str "GO:0006915"]]
  ∧ insert_gene_go_associations frame_without_symbol ready_world
    = (Raised (KeyError "DB_Object_Symbol"), ready_world).
Proof.
  split; [reflexivity|]. split; [reflexivity|].
  apply (insert_gene_go_associations_missing_column frame_without_symbol
           [pd.Str "GO:0006915"] [] ready_world); reflexivity.
Defined.

(** X12: [insert_genes] with at least one identifier raises
    [OperationalError] when the [genes] table does not exist, and has then
    written nothing. *)
Theorem insert_genes_missing_table (g : string) (gs : list string) (w : World) :
  genes (db w) = None →
  ∃ msg, insert_genes (g :: gs) w = (Raised (OperationalError msg), w).
Proof.
  intros Hnone. eexists. unfold insert_genes. cbn [for_each].
  erewrite bind_raised; [done|]. unfold execute, run_stmt. by rewrite Hnone.
Qed.

Lemma insert_genes_missing_table_witness :
  genes (db fresh_world) = None
  ∧ ∃ msg, insert_genes ["TP53"; "BRCA1"] fresh_world
           = (Raised (OperationalError msg), fresh_world).
Proof.
  split; [reflexivity|].
  apply (insert_genes_missing_table "TP53" ["BRCA1"] fresh_world). reflexivity.
Defined.

(** X13: [insert_pathways] with at least one record raises
    [OperationalError] when the [pathways] table does not exist, and has
    then written nothing. *)
Theorem insert_pathways_missing_table (row : PathwayEntry)
    (rows : list PathwayEntry) (w : World) :
  pathways (db w) = None →
  ∃ msg, insert_pathways (row :: rows) w = (Raised (OperationalError msg), w).
Proof.
  intros Hnone. eexists. unfold insert_pathways. cbn [for_each].
  erewrite bind_raised; [done|]. unfold execute, run_stmt. by rewrite Hnone.
Qed.

Lemma insert_pathways_missing_table_witness :
  pathways (db fresh_world) = None
  ∧ ∃ msg,
      insert_pathways
        [ {| entry_id := Some "10"; gene_id := "TP53";
             entry_type := Some "gene"; disease := "Colorectal cancer" |} ]
        fresh_world
      = (Raised (OperationalError msg), fresh_world).
Proof.
  split; [reflexivity|].
  apply (insert_pathways_missing_table
           {| entry_id := Some "10"; gene_id := "TP53";
              entry_type := Some "gene"; disease := "Colorectal cancer" |}
           [] fresh_world).
  reflexivity.
Defined.

Lemma create_tables_store (w : World) :
  ∃ w',
    create_tables w = (Returned (), w')
    ∧ genes (db w') = Some (default [] (genes (db w)))
    ∧ pathways (db w') = Some (default [] (pathways (db w)))
    ∧ gene_go_associations (db w')
      = Some (default [] (gene_go_associations (db w))).
Proof.
  eexists. split; [apply create_tables_run|]. simpl.
  by destruct (genes (db w)), (pathways (db w)), (gene_go_associations (db w)).
Qed.


(** X14: [insert_genes] leaves the [pathways] and the
    [gene_go_associations] tables as they were, for every list and every
    store, whether it returns or raises. *)
Theorem insert_genes_frame (data : list string) (w : World) :
  pathways (db (insert_genes data w).2) = pathways (db w)
  ∧ gene_go_associations (db (insert_genes data w).2)
    = gene_go_associations (db w).
Proof.
  assert (keeps (λ d, (pathways d, gene_go_associations d)) (insert_genes data))
    as Hkeeps.
  { unfold insert_genes. keeps_step.
    apply keeps_execute. intros d d'. simpl.
    destruct (genes d); intros [= <-]; done. }
  specialize (Hkeeps w). simpl in Hkeeps. by injection Hkeeps.
Qed.

(** X15: on an existing [genes] table, [insert_genes] returns; the rows
    that were there stay first and in place, the table afterwards holds
    exactly the identifiers it held before and those of the list, and keys
    that were unique stay unique. *)
Theorem insert_genes_adds_missing_keys (data : list string) (w : World)
    (rows : list string) :
  genes (db w) = Some rows →
  ∃ w' added,
    insert_genes data w = (Returned (), w')
    ∧ genes (db w') = Some (rows ++ added)
    ∧ (∀ g, g ∈ rows ++ added ↔ g ∈ rows ∨ g ∈ data)
    ∧ (NoDup rows → NoDup (rows ++ added)).
Proof.
  intros Hrows.
  destruct (insert_genes_run data w rows Hrows) as (w' & Hrun & Hg & _).
  destruct (foldl_insert_or_ignore_prefix data rows) as [added Hadded].
  exists w', added. rewrite <- Hadded. split; [done|]. split; [done|]. split.
  - intros g. rewrite foldl_insert_or_ignore_elem. tauto.
  - apply foldl_insert_or_ignore_NoDup.
Qed.

Lemma insert_genes_adds_missing_keys_witness :
  genes (db ready_world) = Some []
  ∧ ∃ w' added,
      insert_genes ["TP53"; "BRCA1"; "TP53"] ready_world = (Returned (), w')
      ∧ genes (db w') = Some ([] ++ added)
      ∧ (∀ g, g ∈ [] ++ added ↔ g ∈ [] ∨ g ∈ ["TP53"; "BRCA1"; "TP53"])
      ∧ (NoDup (@nil string) → NoDup ([] ++ added)).
Proof.
  split; [reflexivity|].
  apply (insert_genes_adds_missing_keys ["TP53"; "BRCA1"; "TP53"] ready_world []).
  reflexivity.
Defined.

(** X16: on an existing [pathways] table, [insert_pathways] returns and
    appends the records in order, and it is not idempotent: inserting the
    same list again appends it again. *)
Theorem insert_pathways_appends_again (data : list PathwayEntry) (w : World)
    (rows : list PathwayEntry) :
  pathways (db w) = Some rows →
  ∃ w1 w2,
    insert_pathways data w = (Returned (), w1)
    ∧ pathways (db w1) = Some (rows ++ data)
    ∧ insert_pathways data w1 = (Returned (), w2)
    ∧ pathways (db w2) = Some (rows ++ data ++ data).
Proof.
  intros Hrows.
  destruct (insert_pathways_run data w rows Hrows) as (w1 & Hrun1 & Hp1).
  destruct (insert_pathways_run data w1 _ Hp1) as (w2 & Hrun2 & Hp2).
  exists w1, w2. rewrite <- app_assoc in Hp2. done.
Qed.

Lemma insert_pathways_appends_again_witness :
  pathways (db ready_world) = Some []
  ∧ ∃ w1 w2,
      insert_pathways (entry_records "Colorectal cancer" (entry "10" "BRCA1 TP53" "gene"))
        ready_world = (Returned (), w1)
      ∧ pathways (db w1)
        = Some ([] ++ entry_records "Colorectal cancer" (entry "10" "BRCA1 TP53" "gene"))
      ∧ insert_pathways (entry_records "Colorectal cancer" (entry "10" "BRCA1 TP53" "gene"))
          w1 = (Returned (), w2)
      ∧ pathways (db w2)
        = Some ([] ++ entry_records "Colorectal cancer" (entry "10" "BRCA1 TP53" "gene")
                   ++ entry_records "Colorectal cancer" (entry "10" "BRCA1 TP53" "gene")).
Proof.
  split; [reflexivity|].
  apply (insert_pathways_appends_again
           (entry_records "Colorectal cancer" (entry "10" "BRCA1 TP53" "gene"))
           ready_world []).
  reflexivity.
Defined.

(** X17: [create_tables] returns from every store.  Afterwards the three
    tables exist: a table that was absent is empty, a table that was there
    has the rows it had. *)
Theorem create_tables_creates_missing (w : World) :
  ∃ w',
    create_tables w = (Returned (), w')
    ∧ genes (db w') = Some (default [] (genes (db w)))
    ∧ pathways (db w') = Some (default [] (pathways (db w)))
    ∧ gene_go_associations (db w')
      = Some (default [] (gene_go_associations (db w))).
Proof.
  apply create_tables_store.
Qed.

(** ** The run, continued *)

Lemma commits_last_bind {A B} (P : Event → Prop) (m : M A) (f : A → M B) :
  emits P m → (∀ a, commits_last P (f a)) → commits_last P (m ≫= f).
Proof.
  intros Hm Hf w. destruct (Hm w) as (l1 & Hl1 & HP1).
  unfold mbind, M_bind. destruct (m w) as [[a|e] w1]; simpl in *.
  - specialize (Hf a w1). destruct (f a w1).1.
    + destruct Hf as (l2 & Hl2 & HP2). exists (l1 ++ l2).
      rewrite Hl2, Hl1, <- !app_assoc. split; [done|]. by apply Forall_app.
    + destruct Hf as (l2 & Hl2 & HP2). exists (l1 ++ l2).
      rewrite Hl2, Hl1, <- !app_assoc. split; [done|]. by apply Forall_app.
  - by exists l1.
Qed.

Lemma commits_last_commit (P : Event → Prop) :
  commits_last P (emit Committed;; emit Closed).
Proof. intros w. simpl. exists []. by rewrite <- app_assoc. Qed.

Section RunMore.

Variable et_parse : string → ET.ParseResult.
Variable read_csv : string → pd.ReadResult.

(** One document the extractor gets through, on an existing [pathways]
  table. *)
Lemma load_document_run (unique_genes : gset string) (doc : string * string)
  (w : World) (rows : list PathwayEntry) :
doc_ok et_parse doc →
pathways (db w) = Some rows →
∃ w',
  load_document et_parse unique_genes doc w
  = (Returned (unique_genes ∪ list_to_set (gene_id <$> doc_records et_parse doc)), w')
  ∧ pathways (db w') = Some (rows ++ doc_records et_parse doc)
  ∧ genes (db w') = genes (db w)
  ∧ gene_go_associations (db w') = gene_go_associations (db w).
Proof.
destruct doc as [file_path label]. unfold doc_ok, doc_records. simpl.
intros Hok Hrows. unfold load_document.
destruct (et_parse file_path) as [e_str|root] eqn:Hparse.
- eexists. split.
  + erewrite bind_returned by (unfold parse_kgml; rewrite Hparse; reflexivity).
    erewrite bind_returned by reflexivity.
    simpl. by rewrite (right_id_L ∅ (∪)).
  + simpl. by rewrite app_nil_r.
- destruct (insert_pathways_run
              (ET.findall root "entry" ≫= entry_records label) w rows Hrows)
    as (w' & Hrun & Hp).
  destruct (insert_pathways_keeps
              (ET.findall root "entry" ≫= entry_records label)) as [Hg Ha].
  specialize (Hg w). specialize (Ha w). rewrite Hrun in Hg, Ha. simpl in Hg, Ha.
  exists w'. split; [|done].
  erewrite bind_returned by (by apply parse_kgml_parsed).
  erewrite bind_returned by exact Hrun.
  apply for_each_union.
Qed.

(** The loop over documents the extractor gets through. *)
Lemma documents_run (docs : list (string * string)) (unique_genes : gset string)
  (w : World) (rows : list PathwayEntry) :
Forall (doc_ok et_parse) docs →
pathways (db w) = Some rows →
∃ w',
  for_each docs (load_document et_parse) unique_genes w
  = (Returned
       (unique_genes ∪ list_to_set (gene_id <$> (docs ≫= doc_records et_parse))),
     w')
  ∧ pathways (db w') = Some (rows ++ (docs ≫= doc_records et_parse))
  ∧ genes (db w') = genes (db w)
  ∧ gene_go_associations (db w') = gene_go_associations (db w).
Proof.
intros Hok. revert unique_genes w rows.
induction Hok as [|doc docs Hdoc _ IH]; intros unique_genes w rows Hrows;
  cbn [for_each].
- exists w. simpl. by rewrite (right_id_L ∅ (∪)), app_nil_r.
- destruct (load_document_run unique_genes doc w rows Hdoc Hrows)
    as (w1 & Hrun1 & Hp1 & Hg1 & Ha1).
  destruct (IH (unique_genes ∪ list_to_set (gene_id <$> doc_records et_parse doc))
              w1 _ Hp1) as (w' & Hrun & Hp & Hg & Ha).
  exists w'. rewrite bind_cons, fmap_app, list_to_set_app_L.
  split; [|split; [|split]].
  + erewrite bind_returned by exact Hrun1.
    rewrite Hrun. by rewrite (assoc_L (∪)).
  + by rewrite Hp, <- app_assoc.
  + congruence.
  + congruence.
Qed.

(** The whole run, when the extractor gets through every document and the
  annotation table has seventeen columns. *)
Lemma main_run (d : Store) (rows : list (list pd.Cell)) :
Forall (doc_ok et_parse) files_and_diseases →
read_csv "goa_human.gaf" = pd.ReadFrame 17 rows →
∃ w',
  run_main et_parse read_csv d = (Returned (), w')
  ∧ pathways (db w') = Some (default [] (pathways d) ++ run_records et_parse)
  ∧ genes (db w')
    = Some (foldl (λ rows g, insert_or_ignore g rows) (default [] (genes d))
              (elements (list_to_set (C := gset string)
                           (gene_id <$> run_records et_parse))))
  ∧ gene_go_associations (db w')
    = Some (default [] (gene_go_associations d)
            ++ (record_tuple <$>
                  pd.unmarked (pd.duplicated [] (gaf_pairs rows)) (gaf_pairs rows))).
Proof.
intros Hok Hread. unfold run_main, main, run_records.
destruct (create_tables_store {| db := d; trace := [] |})
  as (w1 & Hrun1 & Hg1 & Hp1 & Ha1).
destruct (documents_run files_and_diseases ∅ w1 _ Hok Hp1)
  as (w2 & Hrun2 & Hp2 & Hg2 & Ha2).
rewrite (left_id_L ∅ (∪)) in Hrun2.
rewrite Hg1 in Hg2. rewrite Ha1 in Ha2.
destruct (insert_genes_run
            (elements (list_to_set (C := gset string)
               (gene_id <$> (files_and_diseases ≫= doc_records et_parse))))
            w2 _ Hg2) as (w3 & Hrun3 & Hg3 & Hp3 & Ha3).
rewrite Hp2 in Hp3. rewrite Ha2 in Ha3.
destruct (insert_gene_go_associations_run
            (pd.drop_duplicates
               {| pd.columns := [pd.Name "DB_Object_Symbol"; pd.Name "GO_ID"];
                  pd.data := gaf_pairs rows |}) 0 1 w3 _ eq_refl eq_refl Ha3)
  as (w4 & Hrun4 & Ha4 & Hg4 & Hp4).
rewrite Hg3 in Hg4. rewrite Hp3 in Hp4.
exists {| db := db w4; trace := (trace w4 ++ [Committed]) ++ [Closed] |}.
split; [|done].
erewrite bind_returned by exact Hrun1.
erewrite bind_returned by exact Hrun2.
erewrite bind_returned by exact Hrun3.
erewrite bind_returned by (by apply parse_gaf_run).
erewrite bind_returned by exact Hrun4.
reflexivity.
Qed.

End RunMore.

Section RunResults.

Variable et_parse : string → ET.ParseResult.
Variable read_csv : string → pd.ReadResult.

(** X18: the whole run.  When every document either cannot be read or has
  a name on every entry, and the annotation table has seventeen columns,
  [main] returns, and from any store it leaves: the pathway rows that
  were there followed by the records of the four documents in run order;
  a gene table holding the identifiers that were there and the gene
  tokens of those records, unique if they were unique before; the
  annotation rows that were there followed by the distinct pairs of the
  table. *)
Theorem main_loads_everything (d : Store) (rows : list (list pd.Cell)) :
Forall (doc_ok et_parse) files_and_diseases →
read_csv "goa_human.gaf" = pd.ReadFrame 17 rows →
∃ w' gs,
  run_main et_parse read_csv d = (Returned (), w')
  ∧ pathways (db w') = Some (default [] (pathways d) ++ run_records et_parse)
  ∧ genes (db w') = Some gs
  ∧ (∀ g, g ∈ gs ↔
          g ∈ default [] (genes d) ∨ g ∈ gene_id <$> run_records et_parse)
  ∧ (NoDup (default [] (genes d)) → NoDup gs)
  ∧ gene_go_associations (db w')
    = Some (default [] (gene_go_associations d)
            ++ (record_tuple <$>
                  pd.unmarked (pd.duplicated [] (gaf_pairs rows)) (gaf_pairs rows))).
Proof.
intros Hok Hread.
destruct (main_run et_parse read_csv d rows Hok Hread)
  as (w' & Hrun & Hp & Hg & Ha).
eexists w', _. split; [done|]. split; [done|]. split; [exact Hg|].
split; [|split; [|done]].
- intros g. rewrite foldl_insert_or_ignore_elem, elem_of_elements,
    elem_of_list_to_set. tauto.
- apply foldl_insert_or_ignore_NoDup.
Qed.

(** X19: after such a run every pathway row names a gene of the gene
  table, provided that held for the rows that were there before; the
  foreign key, which the store does not check, holds at the end. *)
Theorem main_pathway_genes_present (d : Store) (rows : list (list pd.Cell)) :
Forall (doc_ok et_parse) files_and_diseases →
read_csv "goa_human.gaf" = pd.ReadFrame 17 rows →
Forall (λ r, gene_id r ∈ default [] (genes d)) (default [] (pathways d)) →
∃ w' ps gs,
  run_main et_parse read_csv d = (Returned (), w')
  ∧ pathways (db w') = Some ps
  ∧ genes (db w') = Some gs
  ∧ Forall (λ r, gene_id r ∈ gs) ps.
Proof.
intros Hok Hread Hold.
destruct (main_run et_parse read_csv d rows Hok Hread)
  as (w' & Hrun & Hp & Hg & Ha).
eexists w', _, _. split; [done|]. split; [exact Hp|]. split; [exact Hg|].
apply Forall_app. split.
- eapply Forall_impl; [exact Hold|]. intros r Hr. simpl in *.
  apply foldl_insert_or_ignore_elem. by right.
- apply Forall_forall. intros r Hr.
  apply foldl_insert_or_ignore_elem. left.
  apply elem_of_elements, elem_of_list_to_set, list_elem_of_fmap. by exists r.
Qed.

(** X20: running [main] a second time on the store the first run left,
  with the same files, returns again; the gene table stays as it was,
  while the pathway rows and the annotation rows of the run are appended
  a second time. *)
Theorem main_rerun_duplicates (d : Store) (rows : list (list pd.Cell)) :
Forall (doc_ok et_parse) files_and_diseases →
read_csv "goa_human.gaf" = pd.ReadFrame 17 rows →
∃ w1 w2,
  run_main et_parse read_csv d = (Returned (), w1)
  ∧ run_main et_parse read_csv (db w1) = (Returned (), w2)
  ∧ genes (db w2) = genes (db w1)
  ∧ pathways (db w2)
    = Some (default [] (pathways d) ++ run_records et_parse ++ run_records et_parse)
  ∧ gene_go_associations (db w2)
    = Some (default [] (gene_go_associations d)
            ++ (record_tuple <$>
                  pd.unmarked (pd.duplicated [] (gaf_pairs rows)) (gaf_pairs rows))
            ++ (record_tuple <$>
                  pd.unmarked (pd.duplicated [] (gaf_pairs rows)) (gaf_pairs rows))).
Proof.
intros Hok Hread.
destruct (main_run et_parse read_csv d rows Hok Hread)
  as (w1 & Hrun1 & Hp1 & Hg1 & Ha1).
destruct (main_run et_parse read_csv (db w1) rows Hok Hread)
  as (w2 & Hrun2 & Hp2 & Hg2 & Ha2).
exists w1, w2. split; [done|]. split; [done|].
rewrite Hp2, Hg2, Ha2, Hp1, Hg1, Ha1. simpl. rewrite <- !app_assoc.
split; [|done]. f_equal.
apply foldl_insert_or_ignore_present. intros g Hg.
apply foldl_insert_or_ignore_elem. by left.
Qed.

(** X21: the commit comes last or not at all.  A run that returns has
  committed and closed as its last two events and at no earlier point;
  a run that raises has neither committed nor closed the connection. *)
Theorem main_commits_last (d : Store) :
match (run_main et_parse read_csv d).1 with
| Returned _ =>
    ∃ l, trace (run_main et_parse read_csv d).2 = l ++ [Committed; Closed]
         ∧ Forall before_commit l
| Raised _ => Forall before_commit (trace (run_main et_parse read_csv d).2)
end.
Proof.
assert (commits_last before_commit (main et_parse read_csv)) as Hmain.
{ unfold main.
  apply commits_last_bind;
    [apply create_tables_emits; unfold before_commit; solve_event|intros _].
  apply commits_last_bind.
  { apply emits_for_each. intros s doc.
    apply load_document_emits; unfold before_commit; solve_event. }
  intros unique_genes.
  apply commits_last_bind;
    [apply insert_genes_emits; unfold before_commit; solve_event|intros _].
  apply commits_last_bind; [apply parse_gaf_emits|intros gaf_data].
  apply commits_last_bind;
    [apply insert_gene_go_associations_emits; unfold before_commit; solve_event
    |intros _].
  apply commits_last_commit. }
specialize (Hmain {| db := d; trace := [] |}). unfold run_main.
destruct (main et_parse read_csv {| db := d; trace := [] |}).1.
- destruct Hmain as (l & Hl & HP). by exists l.
- destruct Hmain as (l & Hl & HP). by rewrite Hl.
Qed.

End RunResults.

Section RunAborts.

Variable et_parse : string → ET.ParseResult.
Variable read_csv : string → pd.ReadResult.

(** A document with a nameless entry stops the loop body with
  [AttributeError], before anything is printed or written. *)
Lemma load_document_nameless (unique_genes : gset string) (doc : string * string)
  (w : World) :
doc_nameless_entry et_parse doc →
∃ msg,
  load_document et_parse unique_genes doc w = (Raised (AttributeError msg), w).
Proof.
destruct doc as [file_path label]. intros (root & e & Hparse & He & Hname).
simpl in Hparse.
destruct (parse_kgml_nameless et_parse file_path label root w Hparse) as [msg Hmsg].
{ unfold entry_names. apply Exists_exists. exists None. split; [|done].
  apply list_elem_of_fmap. by exists e. }
exists msg. unfold load_document. by erewrite bind_raised.
Qed.

(** On an existing [pathways] table the loop body either returns, the
  table still being there, or raises [AttributeError]. *)
Lemma load_document_cases (unique_genes : gset string) (doc : string * string)
  (w : World) :
is_Some (pathways (db w)) →
(∃ unique_genes' w',
   load_document et_parse unique_genes doc w = (Returned unique_genes', w')
   ∧ is_Some (pathways (db w')))
∨ (∃ msg w',
     load_document et_parse unique_genes doc w = (Raised (AttributeError msg), w')).
Proof.
intros [rows Hrows].
assert (doc_ok et_parse doc → ∃ unique_genes' w',
          load_document et_parse unique_genes doc w = (Returned unique_genes', w')
          ∧ is_Some (pathways (db w'))) as Hleft.
{ intros Hok.
  destruct (load_document_run et_parse unique_genes doc w rows Hok Hrows)
    as (w' & Hrun & Hp & _).
  eexists _, w'. split; [exact Hrun|]. by eexists. }
destruct doc as [file_path label]. unfold doc_ok in Hleft. simpl in Hleft.
destruct (et_parse file_path) as [e_str|root] eqn:Hparse; [by left; apply Hleft|].
destruct (decide (Forall is_Some (entry_names root))) as [Hok|Hbad];
  [by left; apply Hleft|].
right. apply not_Forall_Exists in Hbad; [|apply _].
destruct (parse_kgml_nameless et_parse file_path label root w Hparse) as [msg Hmsg].
{ eapply Exists_impl; [exact Hbad|]. intros [name|] Hnot; [|done].
  destruct Hnot. by eexists. }
exists msg, w. unfold load_document. by erewrite bind_raised.
Qed.

Lemma documents_nameless (docs : list (string * string))
  (unique_genes : gset string) (w : World) :
Exists (doc_nameless_entry et_parse) docs →
is_Some (pathways (db w)) →
∃ msg w',
  for_each docs (load_document et_parse) unique_genes w
  = (Raised (AttributeError msg), w').
Proof.
revert unique_genes w.
induction docs as [|doc docs IH]; intros unique_genes w Hex Hp.
- by apply Exists_nil in Hex.
- cbn [for_each].
  destruct (load_document_cases unique_genes doc w Hp)
    as [(ug' & w1 & Hrun & Hp1)|(msg & w1 & Hrun)].
  + apply Exists_cons in Hex as [Hdoc|Hex].
    * destruct (load_document_nameless unique_genes doc w Hdoc) as [msg Hmsg].
      congruence.
    * destruct (IH ug' w1 Hex Hp1) as (msg & w' & Hloop).
      exists msg, w'. by erewrite bind_returned.
  + exists msg, w1. by erewrite bind_raised.
Qed.

(** X22: when one of the four documents has an entry without a name, the
  run ends with [AttributeError]: no gene and no annotation row has been
  inserted, and nothing is committed. *)
Theorem main_missing_name_aborts (d : Store) :
Exists (doc_nameless_entry et_parse) files_and_diseases →
∃ msg,
  (run_main et_parse read_csv d).1 = Raised (AttributeError msg)
  ∧ Forall (λ ev, ¬ writes_to genes_t ev
                  ∧ ¬ writes_to gene_go_associations_t ev
                  ∧ before_commit ev)
      (trace (run_main et_parse read_csv d).2).
Proof.
intros Hex. unfold run_main, main.
set (P := λ ev, ¬ writes_to genes_t ev
                ∧ ¬ writes_to gene_go_associations_t ev
                ∧ before_commit ev).
set (w0 := {| db := d; trace := [] |}).
destruct (create_tables_store w0) as (w1 & Hrun1 & _ & Hp1 & _).
destruct (documents_nameless files_and_diseases ∅ w1 Hex) as (msg & w' & Hloop).
{ by eexists. }
exists msg.
erewrite bind_returned by exact Hrun1.
erewrite bind_raised by exact Hloop. split; [done|]. simpl.
assert (emits P create_tables) as Hcreate.
{ apply create_tables_emits; unfold P, before_commit; solve_event. }
assert (emits P (for_each files_and_diseases (load_document et_parse) ∅))
  as Hdocs.
{ apply emits_for_each. intros s doc.
  apply load_document_emits; unfold P, before_commit; solve_event. }
destruct (Hcreate w0) as (l1 & Hl1 & HP1). rewrite Hrun1 in Hl1.
destruct (Hdocs w1) as (l2 & Hl2 & HP2). rewrite Hloop in Hl2.
simpl in *. rewrite Hl2, Hl1. by apply Forall_app.
Qed.

End RunAborts.

(** The files of the witnesses: one readable document, the others
    missing. *)
Lemma only_colorectal_doc_ok (root : ET.Element) :
  Forall is_Some (entry_names root) →
  Forall (doc_ok (only_colorectal root)) files_and_diseases.
Proof.
  intros Hnamed. repeat constructor; try exact I. exact Hnamed.
Qed.

Lemma main_loads_everything_witness :
  Forall (doc_ok (only_colorectal doc_two_genes)) files_and_diseases
  ∧ ∃ w' gs,
      run_main (only_colorectal doc_two_genes) gaf_three_rows empty_store
      = (Returned (), w')
      ∧ pathways (db w')
        = Some (default [] (pathways empty_store)
                ++ run_records (only_colorectal doc_two_genes))
      ∧ genes (db w') = Some gs
      ∧ (∀ g, g ∈ gs ↔
              g ∈ default [] (genes empty_store)
              ∨ g ∈ gene_id <$> run_records (only_colorectal doc_two_genes))
      ∧ (NoDup (default [] (genes empty_store)) → NoDup gs)
      ∧ gene_go_associations (db w')
        = Some (default [] (gene_go_associations empty_store)
                ++ (record_tuple <$>
                      pd.unmarked
                        (pd.duplicated []
                           (gaf_pairs [ gaf_row "TP53" "GO:0006915" "x";
                                        gaf_row "TP53" "GO:0006915" "y";
                                        gaf_row "BRCA1" "GO:0006281" "z" ]))
                        (gaf_pairs [ gaf_row "TP53" "GO:0006915" "x";
                                     gaf_row "TP53" "GO:0006915" "y";
                                     gaf_row "BRCA1" "GO:0006281" "z" ]))).
Proof.
  assert (Hok : Forall (doc_ok (only_colorectal doc_two_genes)) files_and_diseases).
  { apply only_colorectal_doc_ok. vm_compute. repeat constructor. by eexists. }
  split; [exact Hok|].
  apply (main_loads_everything (only_colorectal doc_two_genes) gaf_three_rows
           empty_store
           [ gaf_row "TP53" "GO:0006915" "x"; gaf_row "TP53" "GO:0006915" "y";
             gaf_row "BRCA1" "GO:0006281" "z" ] Hok).
  reflexivity.
Defined.

Lemma main_pathway_genes_present_witness :
  Forall (doc_ok (only_colorectal doc_two_genes)) files_and_diseases
  ∧ Forall (λ r, gene_id r ∈ default [] (genes empty_store))
      (default [] (pathways empty_store))
  ∧ ∃ w' ps gs,
      run_main (only_colorectal doc_two_genes) gaf_three_rows empty_store
      = (Returned (), w')
      ∧ pathways (db w') = Some ps
      ∧ genes (db w') = Some gs
      ∧ Forall (λ r, gene_id r ∈ gs) ps.
Proof.
  assert (Hok : Forall (doc_ok (only_colorectal doc_two_genes)) files_and_diseases).
  { apply only_colorectal_doc_ok. vm_compute. repeat constructor. by eexists. }
  split; [exact Hok|]. split; [constructor|].
  apply (main_pathway_genes_present (only_colorectal doc_two_genes) gaf_three_rows
           empty_store
           [ gaf_row "TP53" "GO:0006915" "x"; gaf_row "TP53" "GO:0006915" "y";
             gaf_row "BRCA1" "GO:0006281" "z" ] Hok);
    [reflexivity|constructor].
Defined.

Lemma main_rerun_duplicates_witness :
  Forall (doc_ok (only_colorectal doc_two_genes)) files_and_diseases
  ∧ ∃ w1 w2,
      run_main (only_colorectal doc_two_genes) gaf_duplicate_pair empty_store
      = (Returned (), w1)
      ∧ run_main (only_colorectal doc_two_genes) gaf_duplicate_pair (db w1)
        = (Returned (), w2)
      ∧ genes (db w2) = genes (db w1)
      ∧ pathways (db w2)
        = Some (default [] (pathways empty_store)
                ++ run_records (only_colorectal doc_two_genes)
                ++ run_records (only_colorectal doc_two_genes))
      ∧ gene_go_associations (db w2)
        = Some (default [] (gene_go_associations empty_store)
                ++ (record_tuple <$>
                      pd.unmarked
                        (pd.duplicated []
                           (gaf_pairs [ gaf_row "TP53" "GO:0006915" "x";
                                        gaf_row "TP53" "GO:0006915" "y" ]))
                        (gaf_pairs [ gaf_row "TP53" "GO:0006915" "x";
                                     gaf_row "TP53" "GO:0006915" "y" ]))
                ++ (record_tuple <$>
                      pd.unmarked
                        (pd.duplicated []
                           (gaf_pairs [ gaf_row "TP53" "GO:0006915" "x";
                                        gaf_row "TP53" "GO:0006915" "y" ]))
                        (gaf_pairs [ gaf_row "TP53" "GO:0006915" "x";
                                     gaf_row "TP53" "GO:0006915" "y" ]))).
Proof.
  assert (Hok : Forall (doc_ok (only_colorectal doc_two_genes)) files_and_diseases).
  { apply only_colorectal_doc_ok. vm_compute. repeat constructor. by eexists. }
  split; [exact Hok|].
  apply (main_rerun_duplicates (only_colorectal doc_two_genes) gaf_duplicate_pair
           empty_store
           [ gaf_row "TP53" "GO:0006915" "x"; gaf_row "TP53" "GO:0006915" "y" ] Hok).
  reflexivity.
Defined.

Lemma main_missing_name_aborts_witness :
  Exists (doc_nameless_entry (only_colorectal doc_nameless)) files_and_diseases
  ∧ ∃ msg,
      (run_main (only_colorectal doc_nameless) gaf_three_rows empty_store).1
      = Raised (AttributeError msg)
      ∧ Forall (λ ev, ¬ writes_to genes_t ev
                      ∧ ¬ writes_to gene_go_associations_t ev
                      ∧ before_commit ev)
          (trace (run_main (only_colorectal doc_nameless) gaf_three_rows
                    empty_store).2).
Proof.
  assert (Hex : Exists (doc_nameless_entry (only_colorectal doc_nameless))
                  files_and_diseases).
  { do 3 apply Exists_cons_tl. apply Exists_cons_hd.
    exists doc_nameless, (nameless_entry "12" "gene").
    split; [reflexivity|]. split; [|reflexivity].
    vm_compute. apply list_elem_of_further, list_elem_of_here. }
  split; [exact Hex|].
  apply (main_missing_name_aborts (only_colorectal doc_nameless) gaf_three_rows
           empty_store Hex).
Defined.

(** ** The order of the run *)

Lemma trace_phases_one {A} (Q : list Event → Prop) (m : M A) :
  (∀ w, ∃ l, trace (m w).2 = trace w ++ l ∧ Q l) → trace_phases [Q] m.
Proof.
  intros Hm w. destruct (Hm w) as (l & Hl & HQ). exists [l].
  simpl. rewrite app_nil_r. split; [done|]. by repeat constructor.
Qed.

Lemma trace_phases_bind {A B} (Q : list Event → Prop)
    (Qs : list (list Event → Prop)) (m : M A) (f : A → M B) :
  (∀ w, ∃ l, trace (m w).2 = trace w ++ l ∧ Q l) →
  Forall (λ Q', Q' []) Qs →
  (∀ a, trace_phases Qs (f a)) →
  trace_phases (Q :: Qs) (m ≫= f).
Proof.
  intros Hm Hnil Hf w. destruct (Hm w) as (l & Hl & HQ).
  unfold mbind, M_bind. destruct (m w) as [[a|e] w1]; simpl in *.
  - destruct (Hf a w1) as (ls & Hls & HQs).
    exists (l :: ls). simpl. rewrite Hls, Hl, <- app_assoc.
    split; [done|]. by constructor.
  - exists (l :: ((λ _, []) <$> Qs)). simpl. split.
    + rewrite Hl. f_equal.
      clear. induction Qs as [|Q' Qs IH]; simpl; [by rewrite app_nil_r|done].
    + constructor; [done|].
      clear -Hnil. induction Hnil as [|Q' Qs HQ' _ IH]; simpl.
      * apply Forall2_nil_2.
      * by apply Forall2_cons_2.
Qed.

(** The gene inserts executed by [insert_genes] are those of the first
    identifiers of the list, in order. *)
Lemma insert_genes_trace (data : list string) (w : World) :
  ∃ inserted,
    inserted `prefix_of` data
    ∧ trace (insert_genes data w).2 = trace w ++ gene_inserts inserted.
Proof.
  unfold insert_genes. revert w.
  induction data as [|g data IH]; intros w; cbn [for_each].
  - exists []. split; [done|]. simpl. by rewrite app_nil_r.
  - destruct (run_stmt (InsertOrIgnoreGene g) (db w)) as [e|d'] eqn:Hstmt.
    + exists []. split; [apply prefix_nil|].
      erewrite bind_raised by (unfold execute; rewrite Hstmt; reflexivity).
      simpl. by rewrite app_nil_r.
    + destruct (IH {| db := d'; trace := trace w ++ [Executed (InsertOrIgnoreGene g)] |})
        as (inserted & Hpre & Htrace).
      exists (g :: inserted). split; [by apply prefix_cons|].
      erewrite bind_returned by (unfold execute; rewrite Hstmt; reflexivity).
      rewrite Htrace. simpl. by rewrite <- app_assoc.
Qed.

Section RunOrder.

Variable et_parse : string → ET.ParseResult.
Variable read_csv : string → pd.ReadResult.

(** X23: the order of a run, whether it returns or raises.  The trace is
  the three statements of the schema setup; then diagnostics and pathway
  inserts only; then gene inserts only, no identifier being inserted
  twice; then annotation inserts, the commit and the close only. *)
Theorem main_phases (d : Store) :
∃ l_docs gs l_end,
  trace (run_main et_parse read_csv d).2
  = schema_events ++ l_docs ++ gene_inserts gs ++ l_end
  ∧ Forall document_event l_docs
  ∧ NoDup gs
  ∧ Forall closing_event l_end.
Proof.
assert (trace_phases
          [ (λ l, l = schema_events);
            Forall document_event;
            (λ l, ∃ gs, NoDup gs ∧ l = gene_inserts gs);
            Forall closing_event ]
          (main et_parse read_csv)) as Hmain.
{ unfold main. apply trace_phases_bind.
  - intros w. eexists. rewrite create_tables_run. simpl. done.
  - repeat constructor. exists []. split; [constructor|done].
  - intros _. apply trace_phases_bind.
    + apply emits_for_each. intros s doc.
      apply load_document_emits; solve_event.
    + repeat constructor. exists []. split; [constructor|done].
    + intros unique_genes. apply trace_phases_bind.
      * intros w.
        destruct (insert_genes_trace (elements unique_genes) w)
          as (inserted & [rest Hpre] & Htrace).
        eexists. split; [exact Htrace|]. exists inserted. split; [|done].
        pose proof (NoDup_elements unique_genes) as Hnd.
        rewrite Hpre in Hnd. by apply NoDup_app in Hnd as [Hnd _].
      * repeat constructor.
      * intros _. apply trace_phases_one.
        change (emits closing_event
                  (gaf_data ← parse_gaf read_csv "goa_human.gaf";
                   insert_gene_go_associations gaf_data;;
                   emit Committed;; emit Closed)).
        emits_step; [apply parse_gaf_emits|].
        emits_step; [apply insert_gene_go_associations_emits; solve_event|].
        repeat emits_step; solve_event. }
destruct (Hmain {| db := d; trace := [] |}) as (ls & Hls & HQs).
apply Forall2_cons_inv_l in HQs as (l1 & ls1 & -> & HQs & ->).
apply Forall2_cons_inv_l in HQs as (l2 & ls2 & Hl2 & HQs & ->).
apply Forall2_cons_inv_l in HQs as (l3 & ls3 & (gs & Hnd & ->) & HQs & ->).
apply Forall2_cons_inv_l in HQs as (l4 & ls4 & Hl4 & HQs & ->).
apply Forall2_nil_inv_l in HQs as ->.
exists l2, gs, l4. unfold run_main. rewrite Hls. simpl.
by rewrite app_nil_r.
Qed.

End RunOrder.

(** ** Tokens and names *)

Lemma str_join_split (s : string) : str_join " " (str_split " " s) = s.
Proof.
  induction s as [|c s IH]; [done|].
  pose proof (str_split_length " " s) as Hlen.
  cbn [str_split]. destruct (decide (c = " "%char)) as [->|Hne].
  - destruct (str_split " " s) as [|p ps]; [done|].
    cbn [str_join] in *. by rewrite IH.
  - destruct (str_split " " s) as [|p ps]; [done|].
    destruct ps as [|p' ps]; cbn [str_join] in *; by rewrite <- IH.
Qed.

Lemma str_append_assoc (a b c : string) : (a +:+ b) +:+ c = a +:+ b +:+ c.
Proof.
  induction a as [|x a IH]; [done|].
  change (String x ((a +:+ b) +:+ c) = String x (a +:+ b +:+ c)).
  by rewrite IH.
Qed.

Lemma str_join_app (sep : string) (l1 l2 : list string) :
  l1 ≠ [] → l2 ≠ [] →
  str_join sep (l1 ++ l2) = str_join sep l1 +:+ sep +:+ str_join sep l2.
Proof.
  intros H1 H2. induction l1 as [|x l1 IH]; [done|].
  destruct l1 as [|y l1].
  - simpl. by destruct l2.
  - change (str_join sep ((x :: y :: l1) ++ l2))
      with (x +:+ sep +:+ str_join sep ((y :: l1) ++ l2)).
    rewrite IH by done.
    change (str_join sep (x :: y :: l1)) with (x +:+ sep +:+ str_join sep (y :: l1)).
    by rewrite !str_append_assoc.
Qed.

Lemma str_split_nonempty (sep : ascii) (s : string) : str_split sep s ≠ [].
Proof.
  pose proof (str_split_length sep s) as Hlen.
  by destruct (str_split sep s).
Qed.

Lemma str_join_concat_split (names : list string) :
  str_join " " (concat (str_split " " <$> names)) = str_join " " names.
Proof.
  induction names as [|n names IH]; [done|].
  rewrite fmap_cons, concat_cons.
  destruct names as [|n' names].
  - simpl. rewrite app_nil_r. apply str_join_split.
  - rewrite str_join_app.
    + rewrite IH, str_join_split. done.
    + apply str_split_nonempty.
    + rewrite fmap_cons, concat_cons. intros Hnil.
      apply app_eq_nil in Hnil as [Hnil _]. by apply str_split_nonempty in Hnil.
Qed.

Lemma entry_records_tokens (label : string) (es : list ET.Element)
    (names : list string) :
  (λ e, ET.get e "name") <$> es = Some <$> names →
  gene_id <$> (es ≫= entry_records label) = concat (str_split " " <$> names).
Proof.
  revert names. induction es as [|e es IH]; intros [|n names] Hnames; try done.
  rewrite !fmap_cons in Hnames. injection Hnames as Hn Hrest.
  rewrite bind_cons, fmap_app, fmap_cons, concat_cons, (IH names Hrest).
  f_equal. unfold entry_records. rewrite Hn. simpl.
  rewrite <- list_fmap_compose. simpl. apply list_fmap_id.
Qed.

(** X24: splitting loses nothing.  The gene tokens of the records, joined
    by single spaces in the order returned, spell the names of the entries
    joined by single spaces. *)
Theorem parse_kgml_tokens_spell_names (et_parse : string → ET.ParseResult)
    (file_path label : string) (root : ET.Element) (names : list string)
    (w : World) :
  et_parse file_path = ET.Parsed root →
  entry_names root = Some <$> names →
  ∃ recs,
    parse_kgml et_parse file_path label w = (Returned recs, w)
    ∧ str_join " " (gene_id <$> recs) = str_join " " names.
Proof.
  intros Hparse Hnames. eexists. split.
  - apply parse_kgml_parsed; [done|]. rewrite Hnames.
    apply Forall_fmap, Forall_forall. intros n _. by eexists.
  - rewrite (entry_records_tokens label _ names) by exact Hnames.
    apply str_join_concat_split.
Qed.

Lemma parse_kgml_tokens_spell_names_witness :
  entry_names doc_double_space = Some <$> ["A  B"]
  ∧ ∃ recs,
      parse_kgml (only_colorectal doc_double_space) "KEGG_data/KGML/hsa05210.xml"
        "Colorectal cancer" fresh_world = (Returned recs, fresh_world)
      ∧ str_join " " (gene_id <$> recs) = str_join " " ["A  B"].
Proof.
  assert (Hnames : entry_names doc_double_space = Some <$> ["A  B"])
    by (vm_compute; reflexivity).
  split; [exact Hnames|].
  apply (parse_kgml_tokens_spell_names (only_colorectal doc_double_space)
           "KEGG_data/KGML/hsa05210.xml" "Colorectal cancer" doc_double_space
           ["A  B"] fresh_world); [reflexivity|exact Hnames].
Defined.

(** X25: [insert_gene_go_associations], given a frame with the two columns
    and at least one record, raises [OperationalError] when the
    [gene_go_associations] table does not exist, and has then written
    nothing. *)
Theorem insert_gene_go_associations_missing_table (df : pd.DataFrame)
    (i j : nat) (row : list pd.Cell) (rest : list (list pd.Cell)) (w : World) :
  pd.index_of (pd.Name "DB_Object_Symbol") (pd.columns df) = Some i →
  pd.index_of (pd.Name "GO_ID") (pd.columns df) = Some j →
  pd.data df = row :: rest →
  gene_go_associations (db w) = None →
  ∃ msg,
    insert_gene_go_associations df w = (Raised (OperationalError msg), w).
Proof.
  intros Hi Hj Hdata Hnone. eexists.
  unfold insert_gene_go_associations, pd.loc. rewrite Hi, Hj, Hdata.
  cbn [for_each]. erewrite bind_raised; [done|].
  erewrite bind_returned by reflexivity.
  erewrite bind_returned by reflexivity.
  unfold execute, run_stmt. by rewrite Hnone.
Qed.

Lemma insert_gene_go_associations_missing_table_witness :
  pd.index_of (pd.Name "DB_Object_Symbol") (pd.columns frame_one_record) = Some 0
  ∧ pd.index_of (pd.Name "GO_ID") (pd.columns frame_one_record) = Some 1
  ∧ pd.data frame_one_record = [[pd.Str "TP53"; pd.Str "GO:0006915"]]
  ∧ gene_go_associations (db fresh_world) = None
  ∧ ∃ msg,
      insert_gene_go_associations frame_one_record fresh_world
      = (Raised (OperationalError msg), fresh_world).
Proof.
  split; [reflexivity|]. split; [reflexivity|]. split; [reflexivity|].
  split; [reflexivity|].
  apply (insert_gene_go_associations_missing_table frame_one_record 0 1
           [pd.Str "TP53"; pd.Str "GO:0006915"] [] fresh_world); reflexivity.
Defined.
